(** * tmexp.train_hdp: reading a bag-of-words corpus and inferring topics

    A shallow embedding of [src/tmexp/train_hdp.py] and of the constants of
    [src/tmexp/io_constants.py] it uses.

    - Python [int] is [Z]; [float] and numpy's float64 are Rocq's primitive
      binary64 floats, so [0 / 0] really is [nan].
    - Text is a [string] of characters with code points below 256; a text
      file is the string of its decoded characters.
    - A raised exception is the [Raise] case of [result]; code that touches
      the file system runs in the state monad [M] over a [world] made of the
      files and a trace of the calls the properties below speak about
      (the trace is for the proofs only; no code reads it).
    - [gensim] and the sibling module [tmexp.utils] are not part of the
      sources at hand: they are interfaces ([Gensim], [Utils]) over which the
      embedding is parameterised.
    - [logger.info] and [tqdm.tqdm] only report progress and are left out. *)

From Stdlib Require Import ZArith String Ascii PrimFloat ZifyBool.
From stdpp Require Import base option list gmap strings.

Set Warnings "-inexact-float".

Local Open Scope Z_scope.

(** ** Exceptions *)

Inductive exception : Type :=
  | ValueError
  | IndexError
  | FileNotFoundError
  | UnicodeDecodeError
  | OtherError (name : string).

Inductive result (A : Type) : Type :=
  | Ok (a : A)
  | Raise (e : exception).
Arguments Ok {A} a.
Arguments Raise {A} e.

#[global] Instance result_ret : MRet result := @Ok.
#[global] Instance result_bind : MBind result := λ A B f r,
  match r with
  | Ok a => f a
  | Raise e => Raise e
  end.

Definition is_ok {A} (r : result A) : bool :=
  match r with Ok _ => true | Raise _ => false end.

(** ** Python text primitives *)

Module Py.

Definition newline : ascii := "010"%char.
Definition carriage_return : ascii := "013"%char.

(** [str.isspace] on one character (code points below 256). *)
Definition isspace (c : ascii) : bool :=
  let n := nat_of_ascii c in
  ((9 <=? n)%nat && (n <=? 13)%nat) || ((28 <=? n)%nat && (n <=? 32)%nat)
  || (n =? 133)%nat || (n =? 160)%nat.

Definition isdigit (c : ascii) : bool :=
  let n := nat_of_ascii c in (48 <=? n)%nat && (n <=? 57)%nat.

Definition digit_value (c : ascii) : Z := Z.of_nat (nat_of_ascii c) - 48.

(** What a file opened in text mode with the default [newline=None]
    hands out: ["\r\n"] and a lone ["\r"] both become ["\n"]. *)
Fixpoint universal_newlines (s : string) : string :=
  match s with
  | EmptyString => EmptyString
  | String c r =>
      if Ascii.eqb c carriage_return then
        match r with
        | String d r' =>
            if Ascii.eqb d newline then String newline (universal_newlines r')
            else String newline (universal_newlines r)
        | EmptyString => String newline EmptyString
        end
      else String c (universal_newlines r)
  end.

(** The lines a text file iterates over: each keeps its ["\n"]; the last
    one has none when the text does not end with a newline. *)
Fixpoint file_lines (s : string) : list string :=
  match s with
  | EmptyString => []
  | String c r =>
      if Ascii.eqb c newline then String c EmptyString :: file_lines r
      else match file_lines r with
           | [] => [String c EmptyString]
           | l :: ls => String c l :: ls
           end
  end.

(** [fin.readline()]: the next line, or the empty string at end of file. *)
Definition readline (fin : list string) : string * list string :=
  match fin with
  | [] => (EmptyString, [])
  | l :: rest => (l, rest)
  end.

(** [s.replace(old, new)] for a pattern [old] of one character. *)
Fixpoint replace (old : ascii) (new : string) (s : string) : string :=
  match s with
  | EmptyString => EmptyString
  | String c r =>
      if Ascii.eqb c old then new +:+ replace old new r
      else String c (replace old new r)
  end.

(** [s.split()]: the maximal runs of non-space characters. *)
Definition push_word (w : string) (ws : list string) : list string :=
  match w with EmptyString => ws | _ => w :: ws end.

Fixpoint split_scan (s : string) : string * list string :=
  match s with
  | EmptyString => (EmptyString, [])
  | String c r =>
      let '(w, ws) := split_scan r in
      if isspace c then (EmptyString, push_word w ws) else (String c w, ws)
  end.

Definition split (s : string) : list string :=
  let '(w, ws) := split_scan s in push_word w ws.

(** The white space [int] skips around a literal: the C white space among
    the ASCII characters (the separators 28..31 are white space for [split]
    but not here) and the Unicode white space above. *)
Definition int_isspace (c : ascii) : bool :=
  let n := nat_of_ascii c in
  ((9 <=? n)%nat && (n <=? 13)%nat) || (n =? 32)%nat
  || (n =? 133)%nat || (n =? 160)%nat.

Fixpoint skip_leading (s : string) : string :=
  match s with
  | String c r => if int_isspace c then skip_leading r else s
  | EmptyString => EmptyString
  end.

Fixpoint skip_trailing (s : string) : string :=
  match s with
  | EmptyString => EmptyString
  | String c r =>
      match skip_trailing r with
      | EmptyString => if int_isspace c then EmptyString else String c EmptyString
      | r' => String c r'
      end
  end.

(** The digits of a decimal literal: single underscores are allowed
    between digits only. [after_digit] tells whether the previous
    character was a digit. *)
Fixpoint digits (acc : Z) (after_digit : bool) (s : string) : option Z :=
  match s with
  | EmptyString => if after_digit then Some acc else None
  | String c r =>
      if isdigit c then digits (10 * acc + digit_value c) true r
      else if Ascii.eqb c "_"%char && after_digit then digits acc false r
      else None
  end.

(** [int(s)] on a string, base 10: surrounding white space is dropped, one
    sign is allowed. [None] stands for [ValueError]. *)
Definition int_opt (s : string) : option Z :=
  match skip_trailing (skip_leading s) with
  | String "-" r => Z.opp <$> digits 0 false r
  | String "+" r => digits 0 false r
  | r => digits 0 false r
  end.

Definition int (s : string) : result Z :=
  match int_opt s with
  | Some n => Ok n
  | None => Raise ValueError
  end.

(** [a, b, c = map(int, words)]: every way this fails (a word that is no
    integer, fewer or more than three words) raises [ValueError]. *)
Definition unpack3_int (words : list string) : result (Z * Z * Z) :=
  match int_opt <$> words with
  | [Some a; Some b; Some c] => Ok (a, b, c)
  | _ => Raise ValueError
  end.

(** [l[i]]: the position a subscript denotes; negative subscripts count
    from the end, anything else raises [IndexError]. *)
Definition index {A} (l : list A) (i : Z) : result nat :=
  let n := Z.of_nat (length l) in
  if (0 <=? i) && (i <? n) then Ok (Z.to_nat i)
  else if (- n <=? i) && (i <? 0) then Ok (Z.to_nat (i + n))
  else Raise IndexError.

(** [os.path.join(a, b)] on POSIX. *)
Definition endswith_sep (a : string) : bool :=
  match String.rev a with
  | String "/" _ => true
  | _ => false
  end.

Definition path_join (a b : string) : string :=
  match b with
  | String "/" _ => b
  | _ =>
      match a with
      | EmptyString => b
      | _ => if endswith_sep a then a +:+ b else a +:+ "/" +:+ b
      end
  end.

End Py.

(** ** [create_gensim_corpus] *)

Abbreviation SparseDocument := (list (Z * Z)).
Abbreviation GensimCorpus := (list (list (Z * Z))).

(** [map(int, line.split())] unpacked into three names. *)
Definition parse_row (line : string) : result (Z * Z * Z) :=
  Py.unpack3_int (Py.split line).

(** The body of [for line in fin]: parse the three integers and append to
    [corpus[doc_id]]. *)
Definition read_row (corpus : GensimCorpus) (line : string) : result GensimCorpus :=
  '(doc_id, word_id, count) ← parse_row line;
  i ← Py.index corpus doc_id;
  Ok (alter (λ doc, doc ++ [(word_id - 1, count)]) i corpus).

Fixpoint read_rows (corpus : GensimCorpus) (fin : list string) : result GensimCorpus :=
  match fin with
  | [] => Ok corpus
  | line :: rest => corpus' ← read_row corpus line; read_rows corpus' rest
  end.

(** The [with] block of [create_gensim_corpus], on the lines of the open
    file. The list comprehension builds one fresh list per document. *)
Definition read_corpus (fin : list string) : result GensimCorpus :=
  let '(line, fin) := Py.readline fin in
  num_docs ← Py.int line;
  let corpus : GensimCorpus := replicate (Z.to_nat num_docs) [] in
  let '(line, fin) := Py.readline fin in
  num_words ← Py.int line;
  let '(line, fin) := Py.readline fin in
  num_rows ← Py.int line;
  read_rows corpus fin.

Definition read_corpus_text (text : string) : result GensimCorpus :=
  read_corpus (Py.file_lines (Py.universal_newlines text)).

Definition nl : string := String Py.newline EmptyString.

(** The text of a file given line by line, each line ended by a newline. *)
Definition text_of_lines (lines : list string) : string :=
  foldr (λ line text, line +:+ nl +:+ text) EmptyString lines.

(** ** The vocabulary loader (the dict comprehension of [train_hdp]) *)

Fixpoint enumerate_from {A} (start : Z) (l : list A) : list (Z * A) :=
  match l with
  | [] => []
  | x :: rest => (start, x) :: enumerate_from (start + 1) rest
  end.

(** [{i: word.replace("\n", "") for i, word in enumerate(fin)}]: the items
    are stored one after the other. *)
Definition load_vocabulary (fin : list string) : gmap Z string :=
  foldl (λ d '(i, word), <[i := Py.replace Py.newline EmptyString word]> d)
        ∅ (enumerate_from 0 fin).

(** The wording of the specification, to compare [load_vocabulary] with:
    a line with its trailing newline stripped. *)
Fixpoint strip_trailing_newline (line : string) : string :=
  match line with
  | EmptyString => EmptyString
  | String c EmptyString =>
      if Ascii.eqb c Py.newline then EmptyString else line
  | String c rest => String c (strip_trailing_newline rest)
  end.

(** ** numpy *)

Abbreviation matrix := (list (list float)).

Module Np.

(** [np.empty((rows, cols))]: a negative dimension raises [ValueError];
    the cells hold whatever the memory held, [uninitialized]. *)
Definition empty (uninitialized : nat → nat → float) (rows : nat) (cols : Z)
  : result matrix :=
  if cols <? 0 then Raise ValueError
  else Ok ((λ i, uninitialized i <$> seq 0 (Z.to_nat cols)) <$> seq 0 rows).

(** [a[i, :] = values] on an array of [cols] columns, for [i >= 0]: a row
    that does not exist raises [IndexError]; [values] must have the length of
    the row or length 1 (broadcast), or numpy raises [ValueError]. *)
Definition set_row (a : matrix) (i : nat) (cols : Z) (values : list float)
  : result matrix :=
  if negb (i <? length a)%nat then Raise IndexError
  else if Z.of_nat (length values) =? cols then Ok (<[i := values]> a)
  else match values with
       | [v] => Ok (<[i := replicate (Z.to_nat cols) v]> a)
       | _ => Raise ValueError
       end.

(** The builtin [sum] over an array: starts from [0], adds left to right. *)
Definition sum (values : list float) : float :=
  fold_left PrimFloat.add values 0%float.

(** [values / s], element by element, in IEEE arithmetic: no exception. *)
Definition divide (values : list float) (s : float) : list float :=
  (λ x, PrimFloat.div x s) <$> values.

(** [res[0]] *)
Definition first {A} (res : list A) : result A :=
  match res with
  | x :: _ => Ok x
  | [] => Raise IndexError
  end.

End Np.

(** [gammas / sum(gammas)] *)
Definition normalize (gammas : list float) : list float :=
  Np.divide gammas (Np.sum gammas).

(** ** The world: files and the trace of observed calls *)

Inductive file : Type :=
  | TextFile (text : string)
  | NpyFile (array : matrix).

Inductive event : Type :=
  | EvOpen (path : string)                        (* [open(path, "r")] *)
  | EvCorpus (input_path : string) (outcome : result GensimCorpus)
                                  (* how [create_gensim_corpus(input_path)] ended *)
  | EvHdpModel (training_corpus : GensimCorpus)   (* [gensim.models.HdpModel(...)] *)
  | EvInference (chunk : list SparseDocument)     (* [hdp.inference(chunk)] *)
  | EvSave (path : string) (array : matrix).      (* [np.save(path, array)] *)

Record world : Type := World { files : gmap string file; trace : list event }.

Definition M (A : Type) : Type := world → result A * world.

#[global] Instance M_ret : MRet M := λ A a w, (Ok a, w).
#[global] Instance M_bind : MBind M := λ A B f m w,
  match m w with
  | (Ok a, w') => f a w'
  | (Raise e, w') => (Raise e, w')
  end.

Definition lift {A} (r : result A) : M A := λ w, (r, w).

Definition emit (e : event) : M unit :=
  λ w, (Ok (), World (files w) (trace w ++ [e])).

(** A helper of [tmexp.utils] acts on the files only: it returns or raises,
    and leaves the files in some state. *)
Definition on_files (f : gmap string file → result () * gmap string file)
  : M unit :=
  λ w, let '(r, fs) := f (files w) in (r, World fs (trace w)).

(** [open(path, "r", encoding="utf-8")] and the lines read from it. An array
    file starts with a byte that is no UTF-8, so reading it as text fails. *)
Definition open_text (path : string) : M (list string) :=
  λ w, let w' := World (files w) (trace w ++ [EvOpen path]) in
       match files w !! path with
       | Some (TextFile text) =>
           (Ok (Py.file_lines (Py.universal_newlines text)), w')
       | Some (NpyFile _) => (Raise UnicodeDecodeError, w')
       | None => (Raise FileNotFoundError, w')
       end.

(** [np.save(path, array)] *)
Definition np_save (path : string) (array : matrix) : M unit :=
  λ w, (Ok (), World (<[path := NpyFile array]> (files w))
                     (trace w ++ [EvSave path array])).

Definition create_gensim_corpus (input_path : string) : M GensimCorpus :=
  λ w, let '(outcome, w') := (fin ← open_text input_path;
                              lift (read_corpus fin)) w in
       (outcome, World (files w') (trace w' ++ [EvCorpus input_path outcome])).

(** ** The collaborators *)

(** [tmexp.utils]: the three helpers [train_hdp] calls. *)
Class Utils : Type := {
  check_file_exists : string → gmap string file → result () * gmap string file;
  check_remove : string → bool → gmap string file → result () * gmap string file;
  create_directory : string → gmap string file → result () * gmap string file;
}.

Record HdpParams : Type := {
  chunk_size : Z; kappa : float; tau : float; K : Z; T : Z;
  alpha : Z; gamma : Z; eta : float; scale : float; var_converge : float;
}.

(** [gensim]: building the dictionary, fitting the model, inference on a
    chunk of documents, the topic-word matrix. Each call may raise. *)
Class Gensim : Type := {
  Dictionary : Type;
  HdpModel : Type;
  Dictionary_from_corpus : GensimCorpus → gmap Z string → result Dictionary;
  HdpModel_new : GensimCorpus → Dictionary → HdpParams → result HdpModel;
  HdpModel_inference : HdpModel → list SparseDocument → result matrix;
  HdpModel_get_topics : HdpModel → result matrix;
}.

(** ** [io_constants] *)

Definition BOW_DIR : string := "/data/bows".
Definition DOCWORD_FILENAME : string := "docword.bow_tm.txt".
Definition VOCAB_FILENAME : string := "vocab.bow_tm.txt".
Definition TOPICS_DIR : string := "/data/topics".
Definition DOCTOPIC_FILENAME : string := "doctopic.npy".
Definition WORDTOPIC_FILENAME : string := "wordtopic.npy".

(** ** [train_hdp] *)

Section train_hdp.

Context `{Utils} `{Gensim}.
(** [io_constants.py] as given does not define this name. *)
Variable DOCWORD_CONCAT_FILENAME : string.
Variable uninitialized : nat → nat → float.

Definition words_input_path (bow_name : string) : string :=
  Py.path_join (Py.path_join BOW_DIR bow_name) VOCAB_FILENAME.
Definition docword_input_path (bow_name : string) : string :=
  Py.path_join (Py.path_join BOW_DIR bow_name) DOCWORD_FILENAME.
Definition docword_concat_input_path (bow_name : string) : string :=
  Py.path_join (Py.path_join BOW_DIR bow_name) DOCWORD_CONCAT_FILENAME.
Definition output_dir (bow_name exp_name : string) : string :=
  Py.path_join (Py.path_join TOPICS_DIR bow_name) exp_name.
Definition doctopic_output_path (bow_name exp_name : string) : string :=
  Py.path_join (output_dir bow_name exp_name) DOCTOPIC_FILENAME.
Definition wordtopic_output_path (bow_name exp_name : string) : string :=
  Py.path_join (output_dir bow_name exp_name) WORDTOPIC_FILENAME.

(** The body of the inference loop, for document number [ind_doc]:
    [gammas = hdp.inference([bow])[0]] and
    [document_topics[ind_doc, :] = gammas / sum(gammas)]. *)
Definition infer_document (hdp : HdpModel) (cols : Z) (ind_doc : nat)
    (bow : SparseDocument) (document_topics : matrix) : M matrix :=
  emit (EvInference [bow]);;
  res ← lift (HdpModel_inference hdp [bow]);
  gammas ← lift (Np.first res);
  lift (Np.set_row document_topics ind_doc cols (normalize gammas)).

(** What [infer_document] computes, the world apart. *)
Definition inferred_row (hdp : HdpModel) (cols : Z) (ind_doc : nat)
    (bow : SparseDocument) (document_topics : matrix) : result matrix :=
  res ← HdpModel_inference hdp [bow];
  gammas ← Np.first res;
  Np.set_row document_topics ind_doc cols (normalize gammas).

(** The loop [for ind_doc, bow in enumerate(corpus)]. *)
Fixpoint infer_topics (hdp : HdpModel) (cols : Z) (ind_doc : nat)
    (docs : list SparseDocument) (document_topics : matrix) : M matrix :=
  match docs with
  | [] => mret document_topics
  | bow :: rest =>
      document_topics ← infer_document hdp cols ind_doc bow document_topics;
      infer_topics hdp cols (S ind_doc) rest document_topics
  end.

(** [chunk_size], [kappa], ..., [var_converge] travel together as [params];
    [log_level] only configures the logger. *)
Definition train_hdp (bow_name exp_name : string) (force : bool)
    (params : HdpParams) (consolidate : bool) : M unit :=
  on_files (check_file_exists (words_input_path bow_name));;
  on_files (check_file_exists (docword_input_path bow_name));;
  (if consolidate
   then on_files (check_file_exists (docword_concat_input_path bow_name))
   else mret ());;
  on_files (check_remove (doctopic_output_path bow_name exp_name) force);;
  on_files (check_remove (wordtopic_output_path bow_name exp_name) force);;
  on_files (create_directory (output_dir bow_name exp_name));;
  fin ← open_text (words_input_path bow_name);
  let word_index := load_vocabulary fin in
  corpus ← create_gensim_corpus (docword_input_path bow_name);
  training_corpus ←
    (if consolidate
     then create_gensim_corpus (docword_concat_input_path bow_name)
     else mret corpus);
  dictionary ← lift (Dictionary_from_corpus training_corpus word_index);
  emit (EvHdpModel training_corpus);;
  hdp ← lift (HdpModel_new training_corpus dictionary params);
  document_topics ← lift (Np.empty uninitialized (length corpus) (T params));
  document_topics ← infer_topics hdp (T params) 0 corpus document_topics;
  np_save (doctopic_output_path bow_name exp_name) document_topics;;
  topics ← lift (HdpModel_get_topics hdp);
  np_save (wordtopic_output_path bow_name exp_name) topics.

End train_hdp.

(** ** [tmexp.utils], from the specification *)

(** Modelled from the spec: [tmexp/utils.py], which defines
    [check_file_exists], [check_remove] and [create_directory], is missing.
    The specification has existence checks on the inputs and, for an output,
    "if the destination exists and force is false, abort before any
    computation; if true, the destination is deleted first". Directories are
    not part of [world], so creating one changes nothing. *)
Definition spec_utils : Utils := {|
  check_file_exists path fs :=
    match fs !! path with
    | Some _ => (Ok (), fs)
    | None => (Raise (OtherError "input file is missing"), fs)
    end;
  check_remove path force fs :=
    match fs !! path with
    | None => (Ok (), fs)
    | Some _ =>
        if force then (Ok (), delete path fs)
        else (Raise (OtherError "output exists, aborting"), fs)
    end;
  create_directory path fs := (Ok (), fs);
|}.

(** ** A small stand-in for [gensim], for running the examples

    The model is its number of topics. Inference gives every topic the
    weight 1, except that, like [HdpModel.inference] of gensim, it leaves
    the weights of an empty document at zero. *)
Definition toy_inference (topics : Z) (bow : SparseDocument) : list float :=
  match bow with
  | [] => replicate (Z.to_nat topics) 0%float
  | _ => replicate (Z.to_nat topics) 1%float
  end.

Definition toy_gensim : Gensim := {|
  Dictionary := unit;
  HdpModel := Z;
  Dictionary_from_corpus _ _ := Ok ();
  HdpModel_new _ _ params := Ok (T params);
  HdpModel_inference topics chunk := Ok (toy_inference topics <$> chunk);
  HdpModel_get_topics topics := Ok (replicate (Z.to_nat topics) []);
|}.

Definition toy_params : HdpParams := {|
  chunk_size := 256; kappa := 1%float; tau := 64%float; K := 15; T := 2;
  alpha := 1; gamma := 1; eta := 0.01%float; scale := 1%float;
  var_converge := 0.0001%float;
|}.

Definition toy_files (vocab docword : string) : gmap string file :=
  <[words_input_path "b" := TextFile vocab]>
    (<[docword_input_path "b" := TextFile docword]> ∅).

(** A run on a vocabulary of three words and a file of three documents
    with two data lines, with the stand-in for gensim. The doc ids 1 and 2
    are in range whether they are counted from 0 or from 1; one document has
    no data line and stays empty. *)
Definition toy_world : world :=
  World (toy_files (text_of_lines ["cat"; "dog"; "fish"])
                   (text_of_lines ["3"; "3"; "2"; "1 1 2"; "2 2 1"]))
        [].

Definition toy_run : result () * world :=
  @train_hdp spec_utils toy_gensim "docword_concat.bow_tm.txt" (λ _ _, 0%float)
             "b" "e" false toy_params false toy_world.

Definition toy_world_consolidated : world :=
  World (<[docword_concat_input_path "docword_concat.bow_tm.txt" "b"
           := TextFile (text_of_lines ["2"; "3"; "1"; "1 1 3"])]>
           (files toy_world))
        [].

Definition toy_run_consolidated : result () * world :=
  @train_hdp spec_utils toy_gensim "docword_concat.bow_tm.txt" (λ _ _, 0%float)
             "b" "e" false toy_params true toy_world_consolidated.

Definition toy_world_with_output : world :=
  World (<[wordtopic_output_path "b" "e" := NpyFile [[1%float]]]>
           (files toy_world))
        [].

(** A stand-in whose [get_topics] raises, for a run that fails late. *)
Definition toy_gensim_without_topics : Gensim := {|
  Dictionary := unit;
  HdpModel := Z;
  Dictionary_from_corpus _ _ := Ok ();
  HdpModel_new _ _ params := Ok (T params);
  HdpModel_inference topics chunk := Ok (toy_inference topics <$> chunk);
  HdpModel_get_topics topics := Raise (OtherError "no topics");
|}.

(** A stand-in whose model remembers what it was built from: the number of
    documents of the training corpus, the number of words of the dictionary
    and the number of topics. The weights it infers for a document that is
    not empty are the first of these numbers and then, for the other topics,
    the second, so the rows of a run show which corpus and which dictionary
    the model came from. *)
Fixpoint float_of_nat (n : nat) : float :=
  match n with
  | O => 0%float
  | S n => PrimFloat.add (float_of_nat n) 1%float
  end.

Definition recording_inference (hdp : nat * nat * Z) (bow : SparseDocument)
  : list float :=
  let '(documents, words, topics) := hdp in
  match bow with
  | [] => replicate (Z.to_nat topics) 0%float
  | _ => float_of_nat documents
         :: replicate (Z.to_nat topics - 1) (float_of_nat words)
  end.

Definition recording_gensim : Gensim := {|
  Dictionary := gmap Z string;
  HdpModel := nat * nat * Z;
  Dictionary_from_corpus _ id2word := Ok id2word;
  HdpModel_new corpus dictionary params :=
    Ok (length corpus, size dictionary, T params);
  HdpModel_inference hdp chunk := Ok (recording_inference hdp <$> chunk);
  HdpModel_get_topics hdp := Ok (replicate (Z.to_nat hdp.2) []);
|}.

Definition recorded_run : result () * world :=
  @train_hdp spec_utils recording_gensim "docword_concat.bow_tm.txt"
             (λ _ _, 0%float) "b" "e" false toy_params false toy_world.

Definition recorded_run_consolidated : result () * world :=
  @train_hdp spec_utils recording_gensim "docword_concat.bow_tm.txt"
             (λ _ _, 0%float) "b" "e" false toy_params true
             toy_world_consolidated.

(** ** The vocabulary of the properties *)

Definition total_pairs (corpus : GensimCorpus) : nat :=
  sum_list_with length corpus.

(** Two data lines that differ at most in their word id and count. *)
Definition same_doc_id (line line' : string) : Prop :=
  ∃ doc_id word_id count word_id' count',
    parse_row line = Ok (doc_id, word_id, count) ∧
    parse_row line' = Ok (doc_id, word_id', count').

(** A newline can only be the last character. *)
Fixpoint newline_only_last (s : string) : bool :=
  match s with
  | EmptyString => true
  | String c EmptyString => true
  | String c rest => negb (Ascii.eqb c Py.newline) && newline_only_last rest
  end.

(** What a trace says: the files opened, the outcomes of the corpus reader,
    the corpora a model was fitted on, the chunks inference was called on,
    the arrays saved. *)
Definition opened (evs : list event) : list string :=
  omap (λ ev, match ev with EvOpen path => Some path | _ => None end) evs.

Definition corpora_read (evs : list event) : list (string * result GensimCorpus) :=
  omap (λ ev, match ev with
              | EvCorpus path outcome => Some (path, outcome)
              | _ => None
              end) evs.

Definition trained_on (evs : list event) : list GensimCorpus :=
  omap (λ ev, match ev with EvHdpModel corpus => Some corpus | _ => None end) evs.

Definition inference_calls (evs : list event) : list (list SparseDocument) :=
  omap (λ ev, match ev with EvInference chunk => Some chunk | _ => None end) evs.

Definition saved (evs : list event) : list (string * matrix) :=
  omap (λ ev, match ev with
              | EvSave path array => Some (path, array)
              | _ => None
              end) evs.

Definition inference_events (docs : list SparseDocument) : list event :=
  (λ bow, EvInference [bow]) <$> docs.

(** An array of [rows] rows and [cols] columns. *)
Definition has_shape (rows : nat) (cols : Z) (m : matrix) : Prop :=
  length m = rows ∧ Forall (λ row, Z.of_nat (length row) = cols) m.

Section shape.

Variable DOCWORD_CONCAT_FILENAME : string.
Variables (bow_name exp_name : string) (consolidate : bool) (cols : Z).

(** The events up to the point where both corpora are in memory. *)
Definition corpus_events (corpus training_corpus : GensimCorpus) : list event :=
  [EvOpen (words_input_path bow_name);
   EvOpen (docword_input_path bow_name);
   EvCorpus (docword_input_path bow_name) (Ok corpus)]
  ++ (if consolidate
      then [EvOpen (docword_concat_input_path DOCWORD_CONCAT_FILENAME bow_name);
            EvCorpus (docword_concat_input_path DOCWORD_CONCAT_FILENAME bow_name)
                     (Ok training_corpus)]
      else []).

(** Every way a run of [train_hdp] can end, with the events it leaves. *)
Inductive run_shape : result () → list event → Prop :=
  | run_checks e :
      run_shape (Raise e) []
  | run_vocabulary e :
      run_shape (Raise e) [EvOpen (words_input_path bow_name)]
  | run_corpus e :
      run_shape (Raise e)
        [EvOpen (words_input_path bow_name);
         EvOpen (docword_input_path bow_name);
         EvCorpus (docword_input_path bow_name) (Raise e)]
  | run_training_corpus corpus e :
      consolidate = true →
      run_shape (Raise e)
        [EvOpen (words_input_path bow_name);
         EvOpen (docword_input_path bow_name);
         EvCorpus (docword_input_path bow_name) (Ok corpus);
         EvOpen (docword_concat_input_path DOCWORD_CONCAT_FILENAME bow_name);
         EvCorpus (docword_concat_input_path DOCWORD_CONCAT_FILENAME bow_name)
                  (Raise e)]
  | run_dictionary corpus training_corpus e :
      (consolidate = false → training_corpus = corpus) →
      run_shape (Raise e) (corpus_events corpus training_corpus)
  | run_inference corpus training_corpus tried e :
      (consolidate = false → training_corpus = corpus) →
      tried `prefix_of` corpus →
      run_shape (Raise e)
        (corpus_events corpus training_corpus
         ++ EvHdpModel training_corpus :: inference_events tried)
  | run_topics corpus training_corpus m e :
      (consolidate = false → training_corpus = corpus) →
      has_shape (length corpus) cols m →
      run_shape (Raise e)
        (corpus_events corpus training_corpus
         ++ EvHdpModel training_corpus :: inference_events corpus
         ++ [EvSave (doctopic_output_path bow_name exp_name) m])
  | run_completed corpus training_corpus m topics :
      (consolidate = false → training_corpus = corpus) →
      has_shape (length corpus) cols m →
      run_shape (Ok ())
        (corpus_events corpus training_corpus
         ++ EvHdpModel training_corpus :: inference_events corpus
         ++ [EvSave (doctopic_output_path bow_name exp_name) m;
             EvSave (wordtopic_output_path bow_name exp_name) topics]).

End shape.

(** The document that [corpus[doc_id]] denotes in a list of [n] documents. *)
Definition addresses (n : nat) (doc_id : Z) (i : nat) : bool :=
  match Py.index (replicate n ()) doc_id with
  | Ok k => (k =? i)%nat
  | Raise _ => false
  end.

(** The pairs that the data lines [triples] hold for document [i]. *)
Definition pairs_for (n i : nat) (triples : list (Z * Z * Z)) : list (Z * Z) :=
  omap (λ '(doc_id, word_id, count),
          if addresses n doc_id i then Some (word_id - 1, count) else None)
       triples.

(** A line of white space only. *)
Fixpoint blank (s : string) : bool :=
  match s with
  | EmptyString => true
  | String c rest => Py.isspace c && blank rest
  end.

(** A token that holds no line break. *)
Fixpoint plain_token (s : string) : bool :=
  match s with
  | EmptyString => true
  | String c rest =>
      negb (Ascii.eqb c Py.newline) && negb (Ascii.eqb c Py.carriage_return)
      && plain_token rest
  end.

(** What [os.path.join(a, b)] puts before a relative [b]. *)
Definition dir_prefix (a : string) : string :=
  match a with
  | EmptyString => EmptyString
  | _ => if Py.endswith_sep a then a else a +:+ "/"
  end.

Fixpoint last_char (s : string) : option ascii :=
  match s with
  | EmptyString => None
  | String c EmptyString => Some c
  | String _ rest => last_char rest
  end.

(** From [w] to [w1] nothing was saved. *)
Definition nothing_saved (w w1 : world) : Prop :=
  ∃ evs, trace w1 = trace w ++ evs ∧ saved evs = [].



(** The files hold, at [path], a text with these lines, or a text that the
    corpus reader reads into [corpus]. *)
Definition holds_text (fs : gmap string file) (path : string)
    (fin : list string) : Prop :=
  ∃ text, fs !! path = Some (TextFile text) ∧
          fin = Py.file_lines (Py.universal_newlines text).

Definition holds_corpus (fs : gmap string file) (path : string)
    (corpus : GensimCorpus) : Prop :=
  ∃ text, fs !! path = Some (TextFile text) ∧
          read_corpus_text text = Ok corpus.

(** The rows of [m] are what the inference of [hdp] gives for the documents
    of [corpus], each divided by its sum (a single value spread over the
    columns), one row per document. *)
Definition rows_inferred `{Gensim} (hdp : HdpModel) (cols : Z)
    (corpus : GensimCorpus) (m : matrix) : Prop :=
  has_shape (length corpus) cols m ∧
  ∀ j bow, corpus !! j = Some bow →
    ∃ gammas rest,
      HdpModel_inference hdp [bow] = Ok (gammas :: rest) ∧
      (m !! j = Some (normalize gammas) ∨
       ∃ v, normalize gammas = [v] ∧
            m !! j = Some (replicate (Z.to_nat cols) v)).

(** How a run ends once the dictionary is built, from the files [fs]: by
    the model constructor on the training corpus, by the inference loop over
    the full corpus with the model it returned, and by [get_topics] of that
    model. [rest] holds the events after the model was asked for, [fs'] the
    files at the end. *)
Definition ends_from_model `{Gensim} (doctopic wordtopic : string)
    (params : HdpParams) (corpus training_corpus : GensimCorpus)
    (dictionary : Dictionary) (fs : gmap string file)
    (r : result ()) (rest : list event) (fs' : gmap string file) : Prop :=
  match HdpModel_new training_corpus dictionary params with
  | Raise e => r = Raise e ∧ rest = [] ∧ fs' = fs
  | Ok hdp =>
      (∃ e tried, r = Raise e ∧ tried `prefix_of` corpus ∧
                  rest = inference_events tried ∧ fs' = fs)
      ∨ ∃ m, rows_inferred hdp (T params) corpus m ∧
          match HdpModel_get_topics hdp with
          | Raise e =>
              r = Raise e ∧
              rest = inference_events corpus ++ [EvSave doctopic m] ∧
              fs' = <[doctopic := NpyFile m]> fs
          | Ok topics =>
              r = Ok () ∧
              rest = inference_events corpus
                     ++ [EvSave doctopic m; EvSave wordtopic topics] ∧
              fs' = <[wordtopic := NpyFile topics]>
                      (<[doctopic := NpyFile m]> fs)
          end
  end.

(** * Properties *)

(** ** The corpus reader *)

Example read_corpus_ex :
  read_corpus_text (text_of_lines ["3"; "3"; "3"; "1 1 2"; "1 2 1"; "2 3 3"])
  = Ok [[]; [(0, 2); (1, 1)]; [(2, 3)]].
Proof. vm_compute. reflexivity. Qed.

Lemma total_pairs_alter (corpus : GensimCorpus) (i : nat) (p : Z * Z) :
  (i < length corpus)%nat →
  total_pairs (alter (λ doc, doc ++ [p]) i corpus) = S (total_pairs corpus).
Proof.
  unfold total_pairs. revert i.
  induction corpus as [|doc corpus IH]; intros [|i] Hi; simpl in Hi; try lia.
  - cbn. rewrite length_app. simpl. lia.
  - specialize (IH i ltac:(lia)). cbn in *. lia.
Qed.

Lemma index_Ok_lt {A} (l : list A) (i : Z) (k : nat) :
  Py.index l i = Ok k → (k < length l)%nat.
Proof.
  unfold Py.index. intros Hk.
  repeat case_match; simplify_eq; lia.
Qed.

Lemma index_length {A B} (l : list A) (l' : list B) (i : Z) :
  length l = length l' → Py.index l i = Py.index l' i.
Proof. unfold Py.index. by intros ->. Qed.

Lemma index_declared_count {A} (l : list A) (num_docs : Z) :
  length l = Z.to_nat num_docs → Py.index l num_docs = Raise IndexError.
Proof.
  unfold Py.index. intros ->.
  repeat case_match; try done; lia.
Qed.

Lemma read_row_parsed (corpus : GensimCorpus) line doc_id word_id count :
  parse_row line = Ok (doc_id, word_id, count) →
  read_row corpus line =
    (i ← Py.index corpus doc_id;
     Ok (alter (λ doc, doc ++ [(word_id - 1, count)]) i corpus)).
Proof. unfold read_row. by intros ->. Qed.

Lemma read_row_Ok (corpus corpus' : GensimCorpus) (line : string) :
  read_row corpus line = Ok corpus' →
  length corpus' = length corpus ∧ total_pairs corpus' = S (total_pairs corpus).
Proof.
  unfold read_row.
  destruct (parse_row line) as [[[doc_id word_id] count]|]; [simpl|done].
  destruct (Py.index corpus doc_id) as [i|] eqn:Hi; [simpl|done].
  intros [= <-]. split; [apply length_alter|].
  apply total_pairs_alter. by eapply index_Ok_lt.
Qed.

Lemma read_rows_Ok (corpus corpus' : GensimCorpus) (fin : list string) :
  read_rows corpus fin = Ok corpus' →
  length corpus' = length corpus ∧
  total_pairs corpus' = (total_pairs corpus + length fin)%nat.
Proof.
  revert corpus. induction fin as [|line fin IH]; intros corpus; simpl.
  - intros [= ->]. split; [done|lia].
  - destruct (read_row corpus line) as [corpus1|] eqn:Hrow; [simpl|done].
    intros Hrest. apply read_row_Ok in Hrow as [Hlen Htot].
    apply IH in Hrest as [Hlen' Htot']. split; [congruence|lia].
Qed.

(** Rows that parse can only stop the reader with [IndexError]; as long as
    they do not, the number of documents stays what it was. *)
Lemma read_rows_parsed (corpus : GensimCorpus) (rows rest : list string) :
  Forall (λ line, is_ok (parse_row line)) rows →
  read_rows corpus (rows ++ rest) = Raise IndexError ∨
  ∃ corpus', length corpus' = length corpus ∧
             read_rows corpus (rows ++ rest) = read_rows corpus' rest.
Proof.
  intros Hrows. revert corpus.
  induction Hrows as [|line rows Hline _ IH]; intros corpus; simpl.
  - right. by exists corpus.
  - destruct (parse_row line) as [[[doc_id word_id] count]|] eqn:Hp; [|done].
    rewrite (read_row_parsed _ _ _ _ _ Hp).
    destruct (Py.index corpus doc_id) as [i|e] eqn:Hi; simpl.
    + destruct (IH (alter (λ doc, doc ++ [(word_id - 1, count)]) i corpus))
        as [->|(corpus' & Hlen & ->)]; [by left|right].
      exists corpus'. split; [|done]. rewrite Hlen. apply length_alter.
    + left. unfold Py.index in Hi. by repeat case_match; simplify_eq.
Qed.

Lemma read_rows_same_doc_id (corpus corpus' : GensimCorpus) (rows rows' : list string) :
  length corpus = length corpus' →
  Forall2 same_doc_id rows rows' →
  is_ok (read_rows corpus rows) = is_ok (read_rows corpus' rows').
Proof.
  intros Hlen Hrows. revert corpus corpus' Hlen.
  induction Hrows as [|line line' rows rows' Hline _ IH]; intros corpus corpus' Hlen;
    [done|simpl].
  destruct Hline as (doc_id & word_id & count & word_id' & count' & Hp & Hp').
  rewrite (read_row_parsed _ _ _ _ _ Hp), (read_row_parsed _ _ _ _ _ Hp').
  rewrite (index_length corpus corpus' doc_id Hlen).
  destruct (Py.index corpus' doc_id) as [i|]; [simpl|done].
  apply IH. transitivity (length corpus); [apply length_alter|].
  transitivity (length corpus'); [done|]. symmetry. apply length_alter.
Qed.

Lemma read_corpus_header (line1 line2 line3 : string) (rows : list string) :
  read_corpus (line1 :: line2 :: line3 :: rows) =
    (num_docs ← Py.int line1; _ ← Py.int line2; _ ← Py.int line3;
     read_rows (replicate (Z.to_nat num_docs) []) rows).
Proof. done. Qed.

(** The reader returns as many documents as the first line declares. *)
Lemma read_corpus_length (line1 line2 line3 : string) (rows : list string)
    (num_docs : Z) (corpus : GensimCorpus) :
  Py.int line1 = Ok num_docs →
  read_corpus (line1 :: line2 :: line3 :: rows) = Ok corpus →
  length corpus = Z.to_nat num_docs.
Proof.
  intros H1. rewrite read_corpus_header, H1. simpl.
  destruct (Py.int line2); [simpl|done]. destruct (Py.int line3); [simpl|done].
  intros [-> _]%read_rows_Ok. apply length_replicate.
Qed.

Lemma total_pairs_replicate_nil (n : nat) : total_pairs (replicate n []) = 0%nat.
Proof. unfold total_pairs. induction n; [done|]. cbn in *. lia. Qed.

(** C1 (the code departs from the claim). The reader does allocate one empty
    document per declared document and does store [word_id - 1], but it
    subscripts the list of documents with the raw doc_id. On a file in the
    documented format, two documents and one data line for the second one
    (doc_id 2), it raises [IndexError], where the claim has the pair appended
    to document [doc_id - 1 = 1]; a data line for the first document
    (doc_id 1) ends in the second one; in general a line [d w c] with
    [0 <= d < D] goes to the document of subscript [d]. *)
Theorem doc_id_is_not_converted :
  read_corpus_text (text_of_lines ["2"; "1"; "1"; "2 1 3"]) = Raise IndexError ∧
  read_corpus_text (text_of_lines ["2"; "1"; "1"; "1 1 3"]) = Ok [[]; [(0, 3)]] ∧
  ∀ (corpus : GensimCorpus) line doc_id word_id count,
    parse_row line = Ok (doc_id, word_id, count) →
    0 ≤ doc_id < Z.of_nat (length corpus) →
    read_row corpus line
    = Ok (alter (λ doc, doc ++ [(word_id - 1, count)]) (Z.to_nat doc_id) corpus).
Proof.
  split; [|split]; [vm_compute; reflexivity..|].
  intros corpus line doc_id word_id count Hline Hdoc.
  rewrite (read_row_parsed _ _ _ _ _ Hline). unfold Py.index.
  destruct (Z.leb_spec 0 doc_id); [|lia].
  destruct (Z.ltb_spec doc_id (Z.of_nat (length corpus))); [done|lia].
Qed.

(** C10. When the three header lines parse, with D the declared number of
    documents, and some data line reads [D word_id count] after data lines
    that all parse as three integers, [create_gensim_corpus] ends with
    [IndexError] and returns no corpus: the list of documents has the
    subscripts 0..D-1 only and doc_id is used as it stands. *)
Theorem doc_id_D_raises_IndexError
    (text line1 line2 line3 line : string) (before after : list string)
    (num_docs word_id count : Z) :
  Py.file_lines (Py.universal_newlines text)
    = line1 :: line2 :: line3 :: before ++ line :: after →
  Py.int line1 = Ok num_docs →
  is_ok (Py.int line2) →
  is_ok (Py.int line3) →
  Forall (λ l, is_ok (parse_row l)) before →
  parse_row line = Ok (num_docs, word_id, count) →
  read_corpus_text text = Raise IndexError.
Proof.
  intros Hlines Hdocs Hwords Hrows Hbefore Hline.
  unfold read_corpus_text. rewrite Hlines, read_corpus_header, Hdocs.
  destruct (Py.int line2); [|done]. destruct (Py.int line3); [simpl|done].
  destruct (read_rows_parsed (replicate (Z.to_nat num_docs) []) before
              (line :: after) Hbefore) as [->|(corpus & Hlen & ->)]; [done|].
  simpl. rewrite (read_row_parsed _ _ _ _ _ Hline).
  rewrite index_declared_count; [done|].
  by rewrite Hlen, length_replicate.
Qed.

Lemma doc_id_D_raises_IndexError_witness :
  read_corpus_text (text_of_lines ["2"; "1"; "2"; "1 1 1"; "2 1 3"])
  = Raise IndexError.
Proof.
  apply (doc_id_D_raises_IndexError _ ("2" +:+ nl) ("1" +:+ nl) ("2" +:+ nl)
           ("2 1 3" +:+ nl) ["1 1 1" +:+ nl] [] 2 1 3).
  - vm_compute. reflexivity.
  - vm_compute. reflexivity.
  - vm_compute. exact I.
  - vm_compute. exact I.
  - constructor; [vm_compute; exact I|constructor].
  - vm_compute. reflexivity.
Defined.

(** C5, counterexample. The header declares N = 5 pairs, one data line
    follows: the reader returns a corpus of one pair, no error. *)
Lemma declared_pair_count_is_not_enforced :
  let text := text_of_lines ["2"; "1"; "5"; "1 1 1"] in
  let fin := Py.file_lines (Py.universal_newlines text) in
  (Py.int <$> fin !! 2%nat) = Some (Ok 5) ∧
  length (drop 3 fin) = 1%nat ∧
  read_corpus_text text = Ok [[]; [(0, 1)]] ∧
  total_pairs [[]; [(0, 1)]] = 1%nat.
Proof. vm_compute. done. Qed.

(** C5, as amended. The reader never compares the number of data lines with
    the declared N: when it returns a corpus, the total number of pairs is
    the number of data lines that follow the three header lines, and any
    other integer on the third line gives the same corpus. *)
Theorem pair_count_is_number_of_data_lines
    (line1 line2 line3 : string) (rows : list string) (corpus : GensimCorpus) :
  read_corpus (line1 :: line2 :: line3 :: rows) = Ok corpus →
  total_pairs corpus = length rows ∧
  ∀ line3', is_ok (Py.int line3') →
            read_corpus (line1 :: line2 :: line3' :: rows) = Ok corpus.
Proof.
  rewrite read_corpus_header.
  destruct (Py.int line1) as [num_docs|] eqn:H1; [simpl|done].
  destruct (Py.int line2) as [num_words|] eqn:H2; [simpl|done].
  destruct (Py.int line3) as [num_rows|]; [simpl|done].
  intros Hrows. split.
  - apply read_rows_Ok in Hrows as [_ ->].
    by rewrite total_pairs_replicate_nil.
  - intros line3' H3. rewrite read_corpus_header, H1. simpl. rewrite H2. simpl.
    by destruct (Py.int line3').
Qed.

Lemma pair_count_is_number_of_data_lines_witness :
  total_pairs [[]; [(0, 1); (2, 4)]] = 2%nat ∧
  ∀ line3', is_ok (Py.int line3') →
            read_corpus ["2" +:+ nl; "3" +:+ nl; line3';
                         "1 1 1" +:+ nl; "1 3 4" +:+ nl]
            = Ok [[]; [(0, 1); (2, 4)]].
Proof.
  apply (pair_count_is_number_of_data_lines
           ("2" +:+ nl) ("3" +:+ nl) ("7" +:+ nl)
           ["1 1 1" +:+ nl; "1 3 4" +:+ nl]).
  vm_compute. reflexivity.
Defined.

(** C4, counterexample. Data lines with doc_id = 0, with a word_id above the
    declared V = 1, with a count of 0 and with a negative count: each file
    is read into a corpus and nothing is raised. *)
Lemma out_of_range_rows_are_read :
  read_corpus_text (text_of_lines ["1"; "1"; "1"; "0 1 1"]) = Ok [[(0, 1)]] ∧
  read_corpus_text (text_of_lines ["2"; "1"; "1"; "1 7 1"]) = Ok [[]; [(6, 1)]] ∧
  read_corpus_text (text_of_lines ["2"; "1"; "1"; "1 1 0"]) = Ok [[]; [(0, 0)]] ∧
  read_corpus_text (text_of_lines ["2"; "1"; "1"; "1 1 -3"]) = Ok [[]; [(0, -3)]].
Proof. vm_compute. done. Qed.

(** ** The vocabulary loader *)

Lemma replace_newline_strip (line : string) :
  newline_only_last line = true →
  Py.replace Py.newline EmptyString line = strip_trailing_newline line.
Proof.
  induction line as [|c rest IH]; [done|].
  destruct rest as [|d rest].
  - intros _. simpl. by destruct (Ascii.eqb c Py.newline).
  - intros Hline. change (negb (Ascii.eqb c Py.newline)
                          && newline_only_last (String d rest) = true) in Hline.
    apply andb_true_iff in Hline as [Hc Hrest].
    change (Py.replace Py.newline "" (String c (String d rest)))
      with (if Ascii.eqb c Py.newline
            then "" +:+ Py.replace Py.newline "" (String d rest)
            else String c (Py.replace Py.newline "" (String d rest))).
    destruct (Ascii.eqb c Py.newline); [done|].
    rewrite (IH Hrest). done.
Qed.

Lemma file_lines_shape (s : string) :
  Forall (λ line, line ≠ EmptyString ∧ newline_only_last line = true)
         (Py.file_lines s).
Proof.
  induction s as [|c rest IH]; simpl; [constructor|].
  destruct (Ascii.eqb c Py.newline) eqn:Hc.
  - constructor; [done|exact IH].
  - destruct (Py.file_lines rest) as [|line lines]; [by repeat constructor|].
    inversion IH as [|? ? [Hne Hline] Hlines]; subst.
    constructor; [|done]. split; [done|].
    destruct line as [|d line]; [done|].
    change (negb (Ascii.eqb c Py.newline)
            && newline_only_last (String d line) = true).
    by rewrite Hc, Hline.
Qed.

Lemma lookup_foldl_insert_enumerate (f : string → string) (fin : list string)
    (start : Z) (d : gmap Z string) (k : Z) :
  foldl (λ d '(i, word), <[i := f word]> d) d (enumerate_from start fin) !! k
  = if bool_decide (start ≤ k < start + Z.of_nat (length fin))
    then f <$> fin !! Z.to_nat (k - start)
    else d !! k.
Proof.
  revert start d. induction fin as [|word fin IH]; intros start d; simpl.
  - rewrite bool_decide_eq_false_2; [done|lia].
  - rewrite IH. destruct (decide (k = start)) as [->|Hk].
    + rewrite bool_decide_eq_false_2 by lia.
      rewrite bool_decide_eq_true_2 by lia.
      rewrite lookup_insert_eq. by rewrite Z.sub_diag.
    + rewrite lookup_insert_ne by done.
      case_bool_decide as H1; case_bool_decide as H2; try lia; [|done].
      replace (Z.to_nat (k - start)) with (S (Z.to_nat (k - (start + 1)))) by lia.
      done.
Qed.

(** C9. The vocabulary loader maps exactly the line numbers 0..L-1 of the
    vocabulary file, and maps line number i to the i-th line without its
    trailing newline. *)
Theorem vocabulary_maps_line_index_to_token (text : string) :
  let fin := Py.file_lines (Py.universal_newlines text) in
  let word_index := load_vocabulary fin in
  (∀ k : Z, is_Some (word_index !! k) ↔ 0 ≤ k < Z.of_nat (length fin)) ∧
  (∀ (i : nat) (line : string),
     fin !! i = Some line →
     word_index !! Z.of_nat i = Some (strip_trailing_newline line)).
Proof.
  intros fin word_index.
  assert (Hlookup : ∀ k, word_index !! k =
            if bool_decide (0 ≤ k < Z.of_nat (length fin))
            then Py.replace Py.newline EmptyString <$> fin !! Z.to_nat k
            else None).
  { intros k. unfold word_index, load_vocabulary.
    rewrite lookup_foldl_insert_enumerate, lookup_empty.
    by rewrite Z.add_0_l, Z.sub_0_r. }
  split.
  - intros k. rewrite Hlookup. case_bool_decide as Hk.
    + split; [done|intros _].
      destruct (lookup_lt_is_Some_2 fin (Z.to_nat k)) as [line ->]; [lia|].
      by eexists.
    + split; [by intros [? ?]|done].
  - intros i line Hline. rewrite Hlookup.
    rewrite bool_decide_eq_true_2
      by (apply lookup_lt_Some in Hline; lia).
    rewrite Nat2Z.id, Hline. simpl. f_equal.
    apply replace_newline_strip.
    pose proof (file_lines_shape (Py.universal_newlines text)) as Hshape.
    rewrite Forall_lookup in Hshape. by apply (Hshape i line).
Qed.

(** ** Runs of [train_hdp] *)

Lemma opened_inference_events docs : opened (inference_events docs) = [].
Proof. induction docs; [done|]. by cbn. Qed.

Lemma corpora_read_inference_events docs : corpora_read (inference_events docs) = [].
Proof. induction docs; [done|]. by cbn. Qed.

Lemma trained_on_inference_events docs : trained_on (inference_events docs) = [].
Proof. induction docs; [done|]. by cbn. Qed.

Lemma saved_inference_events docs : saved (inference_events docs) = [].
Proof. induction docs; [done|]. by cbn. Qed.

Lemma inference_calls_inference_events docs :
  inference_calls (inference_events docs) = (λ bow, [bow]) <$> docs.
Proof. induction docs as [|bow docs IH]; [done|]. cbn. by f_equal. Qed.

Lemma opened_app evs1 evs2 : opened (evs1 ++ evs2) = opened evs1 ++ opened evs2.
Proof. apply omap_app. Qed.

Lemma corpora_read_app evs1 evs2 :
  corpora_read (evs1 ++ evs2) = corpora_read evs1 ++ corpora_read evs2.
Proof. apply omap_app. Qed.

Lemma trained_on_app evs1 evs2 :
  trained_on (evs1 ++ evs2) = trained_on evs1 ++ trained_on evs2.
Proof. apply omap_app. Qed.

Lemma inference_calls_app evs1 evs2 :
  inference_calls (evs1 ++ evs2) = inference_calls evs1 ++ inference_calls evs2.
Proof. apply omap_app. Qed.

Lemma saved_app evs1 evs2 : saved (evs1 ++ evs2) = saved evs1 ++ saved evs2.
Proof. apply omap_app. Qed.

Create Rewrite HintDb trace_proj.
#[global] Hint Rewrite
  opened_app corpora_read_app trained_on_app inference_calls_app saved_app
  opened_inference_events corpora_read_inference_events
  trained_on_inference_events saved_inference_events
  inference_calls_inference_events : trace_proj.

Lemma fmap_prefix {A B} (f : A → B) (l1 l2 : list A) :
  l1 `prefix_of` l2 → f <$> l1 `prefix_of` f <$> l2.
Proof. intros [k ->]. rewrite fmap_app. by exists (f <$> k). Qed.

Lemma empty_shape uninitialized rows cols m :
  Np.empty uninitialized rows cols = Ok m → 0 ≤ cols ∧ has_shape rows cols m.
Proof.
  unfold Np.empty. case_match; [done|]. intros [= <-].
  split; [lia|]. split.
  - by rewrite length_fmap, length_seq.
  - apply Forall_fmap, Forall_forall. intros i _. simpl.
    rewrite length_fmap, length_seq. lia.
Qed.

Lemma set_row_shape a i cols values m rows :
  Np.set_row a i cols values = Ok m →
  0 ≤ cols → has_shape rows cols a → has_shape rows cols m.
Proof.
  unfold Np.set_row. intros Hset Hcols [Hlen Hrows].
  assert (∀ row, Z.of_nat (length row) = cols → has_shape rows cols (<[i := row]> a))
    as Hinsert.
  { intros row Hrow. split; [by rewrite length_insert|].
    apply Forall_insert; done. }
  repeat case_match; simplify_eq; apply Hinsert; [lia|].
  rewrite length_replicate. lia.
Qed.

Lemma bind_run {A B} (m : M A) (f : A → M B) w r w' :
  (m ≫= f) w = (r, w') →
  (∃ e, m w = (Raise e, w') ∧ r = Raise e) ∨
  (∃ a w1, m w = (Ok a, w1) ∧ f a w1 = (r, w')).
Proof.
  unfold mbind, M_bind. destruct (m w) as [[a|e] w1].
  - intros Hf. right. by exists a, w1.
  - intros [= <- <-]. left. by exists e.
Qed.

Lemma on_files_trace f w r w' : on_files f w = (r, w') → trace w' = trace w.
Proof. unfold on_files. by destruct (f (files w)); intros [= <- <-]. Qed.

Lemma open_text_trace path w r w' :
  open_text path w = (r, w') → trace w' = trace w ++ [EvOpen path].
Proof. unfold open_text. by repeat case_match; intros [= <- <-]. Qed.

Lemma create_gensim_corpus_trace path w r w' :
  create_gensim_corpus path w = (r, w') →
  trace w' = trace w ++ [EvOpen path; EvCorpus path r].
Proof.
  unfold create_gensim_corpus.
  destruct ((fin ← open_text path; lift (read_corpus fin)) w) as [r1 w1] eqn:Hrun.
  intros [= <- <-]. simpl.
  apply bind_run in Hrun as [(e & Hopen & ->)|(fin & w2 & Hopen & Hlift)];
    apply open_text_trace in Hopen.
  - by rewrite Hopen, <- app_assoc.
  - injection Hlift as <- <-. by rewrite Hopen, <- app_assoc.
Qed.

(** [create_gensim_corpus] on a text file is [read_corpus_text] on its
    text; it changes no file. *)
Lemma create_gensim_corpus_text path text w :
  files w !! path = Some (TextFile text) →
  create_gensim_corpus path w
  = (read_corpus_text text,
     World (files w)
           (trace w ++ [EvOpen path; EvCorpus path (read_corpus_text text)])).
Proof.
  intros Hfile.
  unfold create_gensim_corpus, mbind, M_bind, open_text, lift, read_corpus_text.
  rewrite Hfile. simpl. by rewrite <- app_assoc.
Qed.

Lemma lift_run {A} (x : result A) w r w' : lift x w = (r, w') → r = x ∧ w' = w.
Proof. by intros [= <- <-]. Qed.

Lemma emit_trace ev w r w' : emit ev w = (r, w') → trace w' = trace w ++ [ev].
Proof. by intros [= <- <-]. Qed.

Lemma np_save_trace path array w r w' :
  np_save path array w = (r, w') →
  r = Ok () ∧ trace w' = trace w ++ [EvSave path array].
Proof. by intros [= <- <-]. Qed.

Lemma check_if_trace (consolidate : bool) f w r w' :
  (if consolidate then on_files f else mret ()) w = (r, w') → trace w' = trace w.
Proof. destruct consolidate; [apply on_files_trace|by intros [= <- <-]]. Qed.

Lemma read_if_trace (consolidate : bool) path (corpus : GensimCorpus) w r w' :
  (if consolidate then create_gensim_corpus path else mret corpus) w = (r, w') →
  (consolidate = true ∧ trace w' = trace w ++ [EvOpen path; EvCorpus path r]) ∨
  (consolidate = false ∧ r = Ok corpus ∧ trace w' = trace w).
Proof.
  destruct consolidate.
  - intros Hread. left. split; [done|]. by apply create_gensim_corpus_trace.
  - intros [= <- <-]. by right.
Qed.

Ltac trace_eq :=
  repeat match goal with
         | H : trace ?w = _ |- context [trace ?w] => rewrite H; clear H
         end;
  rewrite <- ?app_assoc.

Ltac finish_run :=
  trace_eq;
  first [ exists []; split; [by rewrite app_nil_r|]
        | eexists; split; [reflexivity|] ];
  simpl.

Section runs.

Context `{U : Utils} `{G : Gensim}.
Variable DOCWORD_CONCAT_FILENAME : string.
Variable uninitialized : nat → nat → float.

Lemma infer_document_run hdp cols ind_doc bow document_topics w :
  infer_document hdp cols ind_doc bow document_topics w
  = (inferred_row hdp cols ind_doc bow document_topics,
     World (files w) (trace w ++ [EvInference [bow]])).
Proof.
  unfold infer_document, inferred_row, mbind, M_bind, emit, lift. simpl.
  destruct (HdpModel_inference hdp [bow]) as [res|]; [simpl|done].
  by destruct (Np.first res).
Qed.

Lemma infer_topics_run hdp cols ind_doc docs document_topics w r w' :
  infer_topics hdp cols ind_doc docs document_topics w = (r, w') →
  files w' = files w ∧
  ∃ tried, tried `prefix_of` docs ∧
          trace w' = trace w ++ inference_events tried ∧
          ∀ m, r = Ok m →
               tried = docs ∧
               ∀ rows, 0 ≤ cols → has_shape rows cols document_topics →
                       has_shape rows cols m.
Proof.
  revert ind_doc document_topics w.
  induction docs as [|bow docs IH]; intros ind_doc document_topics w; simpl.
  - intros [= <- <-]. split; [done|]. exists []. split; [done|].
    split; [by rewrite app_nil_r|]. by intros m [= <-].
  - unfold mbind at 1, M_bind at 1. rewrite infer_document_run.
    destruct (inferred_row hdp cols ind_doc bow document_topics)
      as [document_topics'|e] eqn:Hrow.
    + intros Hrest. apply IH in Hrest as (Hfiles & tried & Hpre & Htrace & Hok).
      split; [done|]. exists (bow :: tried). split; [by apply prefix_cons|].
      split; [by rewrite Htrace; simpl; rewrite <- app_assoc|].
      intros m Hm. destruct (Hok m Hm) as [-> Hshape]. split; [done|].
      intros rows Hcols Hdt. apply Hshape; [done|].
      unfold inferred_row in Hrow.
      destruct (HdpModel_inference hdp [bow]) as [res|]; [simpl in Hrow|done].
      destruct (Np.first res) as [gammas|]; [simpl in Hrow|done].
      by eapply set_row_shape.
    + intros [= <- <-]. split; [done|]. exists [bow].
      split; [apply prefix_cons, prefix_nil|]. done.
Qed.

Lemma train_hdp_run bow_name exp_name force params consolidate w r w' :
  train_hdp DOCWORD_CONCAT_FILENAME uninitialized
            bow_name exp_name force params consolidate w = (r, w') →
  ∃ evs, trace w' = trace w ++ evs ∧
         run_shape DOCWORD_CONCAT_FILENAME bow_name exp_name consolidate (T params) r evs.
Proof.
  unfold train_hdp. intros Hrun.
  apply bind_run in Hrun as [(e & H1 & ->)|([] & w1 & H1 & Hrun)];
    apply on_files_trace in H1; [finish_run; constructor|].
  apply bind_run in Hrun as [(e & H2 & ->)|([] & w2 & H2 & Hrun)];
    apply on_files_trace in H2; [finish_run; constructor|].
  apply bind_run in Hrun as [(e & H3 & ->)|([] & w3 & H3 & Hrun)];
    apply check_if_trace in H3; [finish_run; constructor|].
  apply bind_run in Hrun as [(e & H4 & ->)|([] & w4 & H4 & Hrun)];
    apply on_files_trace in H4; [finish_run; constructor|].
  apply bind_run in Hrun as [(e & H5 & ->)|([] & w5 & H5 & Hrun)];
    apply on_files_trace in H5; [finish_run; constructor|].
  apply bind_run in Hrun as [(e & H6 & ->)|([] & w6 & H6 & Hrun)];
    apply on_files_trace in H6; [finish_run; constructor|].
  apply bind_run in Hrun as [(e & H7 & ->)|(fin & w7 & H7 & Hrun)];
    apply open_text_trace in H7; [finish_run; constructor|].
  apply bind_run in Hrun as [(e & H8 & ->)|(corpus & w8 & H8 & Hrun)];
    apply create_gensim_corpus_trace in H8; [finish_run; constructor|].
  apply bind_run in Hrun as [(e & H9 & ->)|(training_corpus & w9 & H9 & Hrun)].
  { apply read_if_trace in H9 as [(-> & H9)|(_ & [=] & _)].
    finish_run. by constructor. }
  assert (trace w9 = trace w ++ corpus_events DOCWORD_CONCAT_FILENAME bow_name consolidate corpus
                                              training_corpus
          ∧ (consolidate = false → training_corpus = corpus)) as [Hloaded Htc].
  { apply read_if_trace in H9 as [(-> & H9)|(-> & [= ->] & H9)].
    all: (split; [by trace_eq|done]). }
  clear H1 H2 H3 H4 H5 H6 H7 H8 H9.
  apply bind_run in Hrun as [(e & H10 & ->)|(dictionary & w10 & H10 & Hrun)];
    apply lift_run in H10 as [_ ->].
  { eexists. split; [exact Hloaded|]. by constructor. }
  apply bind_run in Hrun as [(e & [=] & _)|([] & w11 & H11 & Hrun)].
  apply emit_trace in H11.
  assert (∀ e, ∃ evs, trace w11 = trace w ++ evs ∧
            run_shape DOCWORD_CONCAT_FILENAME bow_name exp_name consolidate (T params) (Raise e) evs)
    as Hmodel.
  { intros e. eexists. split; [by trace_eq|].
    apply (run_inference _ _ _ _ _ corpus training_corpus []);
      [done|apply prefix_nil]. }
  apply bind_run in Hrun as [(e & H12 & ->)|(hdp & w12 & H12 & Hrun)];
    apply lift_run in H12 as [_ ->]; [by apply Hmodel|].
  apply bind_run in Hrun as [(e & H13 & ->)|(document_topics & w13 & H13 & Hrun)];
    apply lift_run in H13 as [H13 ->]; [by apply Hmodel|].
  clear Hmodel. symmetry in H13. apply empty_shape in H13 as [Hcols Hshape].
  apply bind_run in Hrun as [(e & H14 & ->)|(m & w14 & H14 & Hrun)];
    apply infer_topics_run in H14 as (_ & tried & Htried & H14 & Hok).
  { eexists. split; [by trace_eq|]. by apply run_inference. }
  destruct (Hok m eq_refl) as [-> Hm]. specialize (Hm _ Hcols Hshape).
  apply bind_run in Hrun as [(e & [=] & _)|([] & w15 & H15 & Hrun)].
  apply np_save_trace in H15 as [_ H15].
  apply bind_run in Hrun as [(e & H16 & ->)|(topics & w16 & H16 & Hrun)];
    apply lift_run in H16 as [_ ->].
  { eexists. split; [by trace_eq|]. by apply run_topics. }
  apply np_save_trace in Hrun as [-> H17].
  eexists. split; [by trace_eq|]. by apply run_completed.
Qed.


End runs.

(** The projections of the trace of a run, computed. *)
Ltac trace_proj :=
  unfold corpus_events; cbn; autorewrite with trace_proj; cbn;
  rewrite ?app_nil_r.

Example toy_run_completes : toy_run.1 = Ok ().
Proof. vm_compute. reflexivity. Qed.

Example toy_run_consolidated_shape :
  corpora_read (trace toy_run_consolidated.2)
  = [(docword_input_path "b", Ok [[]; [(0, 2)]; [(1, 1)]]);
     (docword_concat_input_path "docword_concat.bow_tm.txt" "b",
      Ok [[]; [(0, 3)]])] ∧
  trained_on (trace toy_run_consolidated.2) = [[[]; [(0, 3)]]] ∧
  length <$> (snd <$> head (saved (trace toy_run_consolidated.2))) = Some 3%nat.
Proof. vm_compute. done. Qed.

(** ** Existing outputs *)

Lemma bind_raise {A B} (m : M A) (f : A → M B) w e w' :
  m w = (Raise e, w') → (m ≫= f) w = (Raise e, w').
Proof. unfold mbind, M_bind. by intros ->. Qed.

Lemma bind_ok {A B} (m : M A) (f : A → M B) w a w1 :
  m w = (Ok a, w1) → (m ≫= f) w = f a w1.
Proof. unfold mbind, M_bind. by intros ->. Qed.

Lemma spec_check_file_exists_run path w :
  (∃ e, on_files (@check_file_exists spec_utils path) w = (Raise e, w)) ∨
  on_files (@check_file_exists spec_utils path) w = (Ok (), w).
Proof.
  destruct w as [fs tr]. unfold on_files. simpl.
  destruct (fs !! path); eauto.
Qed.

Lemma spec_check_remove_absent path w :
  files w !! path = None →
  on_files (@check_remove spec_utils path false) w = (Ok (), w).
Proof. destruct w as [fs tr]. unfold on_files. simpl. by intros ->. Qed.

Lemma spec_check_remove_present path w :
  is_Some (files w !! path) →
  ∃ e, on_files (@check_remove spec_utils path false) w = (Raise e, w).
Proof.
  destruct w as [fs tr]. unfold on_files. simpl. intros [f ->]. eauto.
Qed.

(** C6. With the helpers of [tmexp.utils] as the specification describes
    them: when force is false and one of the two output paths exists, the
    run ends with an exception and leaves the world as it was. No file was
    opened and the corpus reader was not called: the trace is unchanged. *)
Theorem existing_output_aborts_before_reading `{G : Gensim}
    (DOCWORD_CONCAT_FILENAME : string) (uninitialized : nat → nat → float)
    (bow_name exp_name : string) (params : HdpParams) (consolidate : bool)
    (w : world) :
  is_Some (files w !! doctopic_output_path bow_name exp_name) ∨
  is_Some (files w !! wordtopic_output_path bow_name exp_name) →
  ∃ e, @train_hdp spec_utils G DOCWORD_CONCAT_FILENAME uninitialized
                  bow_name exp_name false params consolidate w
       = (Raise e, w).
Proof.
  intros Hexists. unfold train_hdp.
  destruct (spec_check_file_exists_run (words_input_path bow_name) w)
    as [[e H1]|H1]; [exists e; by apply bind_raise|].
  rewrite (bind_ok _ _ _ _ _ H1).
  destruct (spec_check_file_exists_run (docword_input_path bow_name) w)
    as [[e H2]|H2]; [exists e; by apply bind_raise|].
  rewrite (bind_ok _ _ _ _ _ H2).
  assert ((∃ e, (if consolidate
                 then on_files (@check_file_exists spec_utils
                        (docword_concat_input_path DOCWORD_CONCAT_FILENAME
                                                   bow_name))
                 else mret ()) w = (Raise e, w)) ∨
          (if consolidate
           then on_files (@check_file_exists spec_utils
                  (docword_concat_input_path DOCWORD_CONCAT_FILENAME bow_name))
           else mret ()) w = (Ok (), w)) as [[e H3]|H3].
  { destruct consolidate; [apply spec_check_file_exists_run|by right]. }
  { exists e. by apply bind_raise. }
  rewrite (bind_ok _ _ _ _ _ H3).
  destruct (files w !! doctopic_output_path bow_name exp_name) as [f|] eqn:Hdoc.
  { destruct (spec_check_remove_present
                (doctopic_output_path bow_name exp_name) w) as [e H4];
      [by rewrite Hdoc|].
    exists e. by apply bind_raise. }
  rewrite (bind_ok _ _ _ _ _ (spec_check_remove_absent _ _ Hdoc)).
  destruct Hexists as [[? [=]]|Hword].
  destruct (spec_check_remove_present _ _ Hword) as [e H5].
  exists e. by apply bind_raise.
Qed.

Lemma existing_output_aborts_before_reading_witness :
  ∃ e, @train_hdp spec_utils toy_gensim "docword_concat.bow_tm.txt"
                  (λ _ _, 0%float) "b" "e" false toy_params false
                  toy_world_with_output
       = (Raise e, toy_world_with_output).
Proof.
  apply (@existing_output_aborts_before_reading toy_gensim).
  right. vm_compute. eauto.
Defined.

(** Without the existing output the same run reads both files. *)
Example toy_run_reads :
  opened (trace toy_run.2) = [words_input_path "b"; docword_input_path "b"].
Proof. vm_compute. reflexivity. Qed.

(** ** Normalisation *)

Lemma sum_zeros (n : nat) : Np.sum (replicate n 0%float) = 0%float.
Proof.
  unfold Np.sum.
  assert (∀ acc, acc = 0%float →
                 fold_left PrimFloat.add (replicate n 0%float) acc = 0%float)
    as Hfold; [|by apply Hfold].
  induction n as [|n IH]; intros acc ->; [done|]. simpl. by apply IH.
Qed.

Lemma normalize_zeros (n : nat) :
  normalize (replicate n 0%float) = replicate n nan.
Proof.
  unfold normalize, Np.divide. rewrite sum_zeros, fmap_replicate. done.
Qed.

(** C3, counterexample. One document of [toy_world] is empty and the
    inference leaves its weights at zero, the zero-sum condition: the run
    completes without any exception and saves an array in which the row of
    that document is filled with NaN. *)
Lemma empty_document_gets_nan_row :
  toy_run.1 = Ok () ∧
  corpora_read (trace toy_run.2)
    = [(docword_input_path "b", Ok [[]; [(0, 2)]; [(1, 1)]])] ∧
  head (saved (trace toy_run.2))
    = Some (doctopic_output_path "b" "e",
            [[nan; nan]; [0.5%float; 0.5%float]; [0.5%float; 0.5%float]]).
Proof. vm_compute. done. Qed.

(** C3, as amended. The loop body has no test of the sum: whatever weights
    the inference returns for a document (empty or not), as long as there
    are T of them, the row written is these weights divided by their sum and
    no exception is raised; weights that are all zero give a row of NaN. *)
Theorem zero_sum_is_divided_unguarded `{G : Gensim}
    (hdp : HdpModel) (cols : Z) (ind_doc : nat) (bow : SparseDocument)
    (document_topics : matrix) (w : world)
    (gammas : list float) (rest : matrix) :
  HdpModel_inference hdp [bow] = Ok (gammas :: rest) →
  Z.of_nat (length gammas) = cols →
  (ind_doc < length document_topics)%nat →
  infer_document hdp cols ind_doc bow document_topics w
  = (Ok (<[ind_doc := Np.divide gammas (Np.sum gammas)]> document_topics),
     World (files w) (trace w ++ [EvInference [bow]]))
  ∧ (gammas = replicate (Z.to_nat cols) 0%float →
     Np.divide gammas (Np.sum gammas) = replicate (Z.to_nat cols) nan).
Proof.
  intros Hinference Hlength Hrow. split.
  - rewrite infer_document_run. f_equal.
    unfold inferred_row. rewrite Hinference. simpl.
    unfold Np.set_row, normalize.
    apply Nat.ltb_lt in Hrow as ->. simpl.
    assert ((Z.of_nat (length (Np.divide gammas (Np.sum gammas))) =? cols) = true)
      as ->; [|done].
    unfold Np.divide. rewrite length_fmap. lia.
  - intros ->. apply normalize_zeros.
Qed.

Lemma zero_sum_is_divided_unguarded_witness :
  @infer_document toy_gensim 2 2 1%nat []
                  [[0.5%float; 0.5%float]; [0%float; 0%float]] toy_world
  = (Ok (<[1%nat := Np.divide [0%float; 0%float] (Np.sum [0%float; 0%float])]>
           [[0.5%float; 0.5%float]; [0%float; 0%float]]),
     World (files toy_world) (trace toy_world ++ [EvInference [[]]]))
  ∧ ([0%float; 0%float] = replicate (Z.to_nat 2) 0%float →
     Np.divide [0%float; 0%float] (Np.sum [0%float; 0%float])
     = replicate (Z.to_nat 2) nan).
Proof.
  apply (@zero_sum_is_divided_unguarded toy_gensim 2 2 1%nat []
           [[0.5%float; 0.5%float]; [0%float; 0%float]] toy_world
           [0%float; 0%float] []).
  - reflexivity.
  - reflexivity.
  - simpl. lia.
Defined.

(** ** Validation *)

(** A run whose document-word file has a data line for a document that
    does not exist: the reader raises and nothing is saved. *)
Example toy_run_out_of_range :
  let run :=
    @train_hdp spec_utils toy_gensim "docword_concat.bow_tm.txt"
      (λ _ _, 0%float) "b" "e" false toy_params false
      (World (toy_files (text_of_lines ["cat"])
                        (text_of_lines ["2"; "1"; "1"; "5 1 1"])) []) in
  run.1 = Raise IndexError ∧
  corpora_read (trace run.2) = [(docword_input_path "b", Raise IndexError)] ∧
  saved (trace run.2) = [].
Proof. vm_compute. done. Qed.

(** C4, as amended. The reader has no error of its own and checks neither
    word_id nor count. On a file whose header and data lines all parse as
    integers it can only raise the [IndexError] of the subscript
    [corpus[doc_id]]; a data line with doc_id = 0 is read as soon as there
    is a document; whether the reader raises is the same for two files that
    differ in their word ids and counts only. And when the reader raises,
    the run of [train_hdp] ends with that exception and saves no array. *)
Theorem reader_checks_no_range :
  (∀ line1 line2 line3 rows,
     is_ok (Py.int line1) → is_ok (Py.int line2) → is_ok (Py.int line3) →
     Forall (λ line, is_ok (parse_row line)) rows →
     read_corpus (line1 :: line2 :: line3 :: rows) = Raise IndexError ∨
     is_ok (read_corpus (line1 :: line2 :: line3 :: rows))) ∧
  (∀ (corpus : GensimCorpus) line word_id count,
     parse_row line = Ok (0, word_id, count) →
     corpus ≠ [] →
     is_ok (read_row corpus line)) ∧
  (∀ line1 line2 line3 rows rows',
     Forall2 same_doc_id rows rows' →
     is_ok (read_corpus (line1 :: line2 :: line3 :: rows))
     = is_ok (read_corpus (line1 :: line2 :: line3 :: rows'))) ∧
  (∀ (U : Utils) (G : Gensim) DOCWORD_CONCAT_FILENAME uninitialized
     bow_name exp_name force params consolidate w r w',
     train_hdp DOCWORD_CONCAT_FILENAME uninitialized
               bow_name exp_name force params consolidate w = (r, w') →
     ∃ evs, trace w' = trace w ++ evs ∧
            ∀ path e, (path, Raise e) ∈ corpora_read evs →
                      r = Raise e ∧ saved evs = []).
Proof.
  split; [|split; [|split]].
  - intros line1 line2 line3 rows H1 H2 H3 Hrows.
    rewrite read_corpus_header.
    destruct (Py.int line1) as [num_docs|]; [simpl|done].
    destruct (Py.int line2); [simpl|done].
    destruct (Py.int line3); [simpl|done].
    destruct (read_rows_parsed (replicate (Z.to_nat num_docs) []) rows []
                Hrows) as [Hraise|(corpus & _ & Hok)];
      rewrite app_nil_r in *; [by left|right]. by rewrite Hok.
  - intros corpus line word_id count Hline Hcorpus.
    rewrite (read_row_parsed _ _ _ _ _ Hline). unfold Py.index.
    destruct corpus; [done|]. simpl length.
    destruct (Z.ltb_spec 0 (Z.of_nat (S (length corpus)))); [done|lia].
  - intros line1 line2 line3 rows rows' Hrows.
    rewrite !read_corpus_header.
    destruct (Py.int line1) as [num_docs|]; [simpl|done].
    destruct (Py.int line2); [simpl|done].
    destruct (Py.int line3); [simpl|done].
    by apply read_rows_same_doc_id.
  - intros U G DOCWORD_CONCAT_FILENAME uninitialized bow_name exp_name force
      params consolidate w r w' Hrun.
    apply train_hdp_run in Hrun as (evs & Htrace & Hshape).
    exists evs. split; [done|]. intros path e Hraised.
    destruct consolidate; inversion Hshape; subst; try discriminate;
      revert Hraised; trace_proj; intros Hraised;
      repeat (apply elem_of_cons in Hraised as [Hraised|Hraised]);
      try (by apply elem_of_nil in Hraised); by simplify_eq.
Qed.

(** * Further properties *)

(** ** The corpus reader: what it raises *)

Lemma int_raises_ValueError (s : string) (e : exception) :
  Py.int s = Raise e → e = ValueError.
Proof. unfold Py.int. by destruct (Py.int_opt s); intros [=]. Qed.

Lemma int_not_ok (s : string) : ¬ is_ok (Py.int s) → Py.int s = Raise ValueError.
Proof. unfold Py.int. by destruct (Py.int_opt s). Qed.

Lemma parse_row_raises_ValueError (line : string) :
  is_ok (parse_row line) = false → parse_row line = Raise ValueError.
Proof.
  unfold parse_row, Py.unpack3_int.
  by repeat case_match.
Qed.

Lemma split_scan_blank (s : string) :
  blank s = true → Py.split_scan s = (EmptyString, []).
Proof.
  induction s as [|c rest IH]; [done|]. simpl.
  intros [Hc Hrest]%andb_true_iff. by rewrite (IH Hrest), Hc.
Qed.

Lemma parse_row_blank (line : string) :
  blank line = true → parse_row line = Raise ValueError.
Proof.
  intros Hblank. unfold parse_row, Py.split.
  by rewrite (split_scan_blank _ Hblank).
Qed.

Lemma read_rows_app (corpus : GensimCorpus) (rows rest : list string) :
  read_rows corpus (rows ++ rest)
  = (corpus' ← read_rows corpus rows; read_rows corpus' rest).
Proof.
  revert corpus. induction rows as [|line rows IH]; intros corpus; [done|].
  simpl. destruct (read_row corpus line) as [corpus1|]; [simpl|done].
  apply IH.
Qed.

(** X1. Unless the file starts with three lines that are integers, the
    reader raises [ValueError]: this covers the empty file and a file of
    fewer than three lines, where [readline] returns the empty string. *)
Theorem incomplete_header_raises_ValueError (fin : list string) :
  ¬ (∃ line1 line2 line3 rows,
       fin = line1 :: line2 :: line3 :: rows ∧
       is_ok (Py.int line1) ∧ is_ok (Py.int line2) ∧ is_ok (Py.int line3)) →
  read_corpus fin = Raise ValueError.
Proof.
  intros Hheader.
  assert (Py.int EmptyString = Raise ValueError) as Hempty by done.
  destruct fin as [|line1 fin]; [done|].
  unfold read_corpus. cbn [Py.readline].
  destruct (Py.int line1) as [num_docs|e] eqn:H1;
    [simpl|by apply int_raises_ValueError in H1 as ->].
  destruct fin as [|line2 fin]; [done|]. cbn [Py.readline].
  destruct (Py.int line2) as [num_words|e] eqn:H2;
    [simpl|by apply int_raises_ValueError in H2 as ->].
  destruct fin as [|line3 rows]; [done|]. cbn [Py.readline].
  destruct (Py.int line3) as [num_rows|e] eqn:H3;
    [simpl|by apply int_raises_ValueError in H3 as ->].
  destruct Hheader. exists line1, line2, line3, rows.
  by rewrite H1, H2, H3.
Qed.

Lemma incomplete_header_raises_ValueError_witness :
  read_corpus ["2" +:+ nl; "3" +:+ nl] = Raise ValueError.
Proof.
  apply incomplete_header_raises_ValueError.
  intros (line1 & line2 & line3 & rows & [=] & _).
Defined.

(** X2. A data line that is blank, or that is not three integers for any
    other reason, makes the reader raise [ValueError] when the lines before
    it are read without error, whatever follows: a trailing blank line is
    not tolerated. *)
Theorem malformed_row_raises_ValueError
    (line1 line2 line3 line : string) (before after : list string)
    (corpus : GensimCorpus) :
  read_corpus (line1 :: line2 :: line3 :: before) = Ok corpus →
  blank line = true ∨ is_ok (parse_row line) = false →
  read_corpus (line1 :: line2 :: line3 :: before ++ line :: after)
  = Raise ValueError.
Proof.
  rewrite !read_corpus_header. intros Hbefore Hline.
  destruct (Py.int line1) as [num_docs|]; [simpl in *|done].
  destruct (Py.int line2); [simpl in *|done].
  destruct (Py.int line3); [simpl in *|done].
  rewrite read_rows_app, Hbefore. simpl. unfold read_row.
  destruct Hline as [Hline|Hline];
    [by rewrite parse_row_blank|by rewrite parse_row_raises_ValueError].
Qed.

Lemma malformed_row_raises_ValueError_witness :
  read_corpus (["2" +:+ nl; "3" +:+ nl; "1" +:+ nl]
               ++ ["1 1 4" +:+ nl] ++ nl :: [])
  = Raise ValueError.
Proof.
  apply (malformed_row_raises_ValueError _ _ _ nl ["1 1 4" +:+ nl] []
           [[]; [(0, 4)]]).
  - vm_compute. reflexivity.
  - left. vm_compute. reflexivity.
Defined.

(** ** The corpus reader: what it returns *)

Lemma addresses_index (corpus : GensimCorpus) (doc_id : Z) (k i : nat) :
  Py.index corpus doc_id = Ok k →
  addresses (length corpus) doc_id i = (k =? i)%nat.
Proof.
  intros Hk. unfold addresses.
  rewrite <- (index_length corpus (replicate (length corpus) ()) doc_id), Hk;
    [done|by rewrite length_replicate].
Qed.

Lemma read_rows_documents (corpus corpus' : GensimCorpus)
    (rows : list string) (triples : list (Z * Z * Z)) :
  Forall2 (λ line t, parse_row line = Ok t) rows triples →
  read_rows corpus rows = Ok corpus' →
  ∀ i doc, corpus !! i = Some doc →
           corpus' !! i = Some (doc ++ pairs_for (length corpus) i triples).
Proof.
  intros Hrows. revert corpus.
  induction Hrows as [|line [[doc_id word_id] count] rows triples Hline _ IH];
    intros corpus; simpl.
  - intros [= <-] i doc Hdoc. by rewrite app_nil_r.
  - rewrite (read_row_parsed _ _ _ _ _ Hline).
    destruct (Py.index corpus doc_id) as [k|] eqn:Hk; [simpl|done].
    intros Hrest i doc Hdoc.
    rewrite (addresses_index _ _ _ i Hk).
    assert (length (alter (λ doc, doc ++ [(word_id - 1, count)]) k corpus)
            = length corpus) as Hlen by apply length_alter.
    destruct (Nat.eqb_spec k i) as [->|Hne].
    + rewrite (IH _ Hrest i (doc ++ [(word_id - 1, count)])).
      * by rewrite Hlen, <- app_assoc.
      * by rewrite list_lookup_alter_eq, Hdoc.
    + rewrite (IH _ Hrest i doc); [by rewrite Hlen|].
      by rewrite list_lookup_alter_ne.
Qed.

(** X3. When the reader returns a corpus, document [i] holds exactly the
    pairs [(word_id - 1, count)] of the data lines whose doc_id denotes
    subscript [i] (a non-negative doc_id as it stands, a negative one counted
    from the end), in the order of the file; repeated lines are kept. *)
Theorem documents_hold_their_lines
    (line1 line2 line3 : string) (rows : list string)
    (triples : list (Z * Z * Z)) (num_docs : Z) (corpus : GensimCorpus) :
  Py.int line1 = Ok num_docs →
  Forall2 (λ line t, parse_row line = Ok t) rows triples →
  read_corpus (line1 :: line2 :: line3 :: rows) = Ok corpus →
  length corpus = Z.to_nat num_docs ∧
  ∀ i, (i < Z.to_nat num_docs)%nat →
       corpus !! i = Some (pairs_for (Z.to_nat num_docs) i triples).
Proof.
  intros H1 Hrows Hread.
  split; [by eapply read_corpus_length|].
  rewrite read_corpus_header, H1 in Hread. simpl in Hread.
  destruct (Py.int line2); [simpl in Hread|done].
  destruct (Py.int line3); [simpl in Hread|done].
  intros i Hi.
  rewrite (read_rows_documents _ _ _ _ Hrows Hread i []).
  - by rewrite length_replicate.
  - by apply lookup_replicate_2.
Qed.

Lemma documents_hold_their_lines_witness :
  length [[(0, 2); (0, 2)]; []; [(4, 1)]] = Z.to_nat 3 ∧
  ∀ i, (i < Z.to_nat 3)%nat →
       [[(0, 2); (0, 2)]; []; [(4, 1)]] !! i
       = Some (pairs_for (Z.to_nat 3) i [(0, 1, 2); (-1, 5, 1); (0, 1, 2)]).
Proof.
  apply (documents_hold_their_lines ("3" +:+ nl) ("9" +:+ nl) ("3" +:+ nl)
           ["0 1 2" +:+ nl; "-1 5 1" +:+ nl; "0 1 2" +:+ nl]).
  - vm_compute. reflexivity.
  - repeat constructor.
  - vm_compute. reflexivity.
Defined.

Lemma read_rows_ok_iff (corpus : GensimCorpus)
    (rows : list string) (triples : list (Z * Z * Z)) :
  Forall2 (λ line t, parse_row line = Ok t) rows triples →
  is_ok (read_rows corpus rows) ↔
  Forall (λ '(doc_id, _, _),
            - Z.of_nat (length corpus) ≤ doc_id < Z.of_nat (length corpus))
         triples.
Proof.
  intros Hrows. revert corpus.
  induction Hrows as [|line [[doc_id word_id] count] rows triples Hline _ IH];
    intros corpus; simpl.
  - split; [constructor|done].
  - rewrite (read_row_parsed _ _ _ _ _ Hline), Forall_cons.
    unfold Py.index.
    destruct ((0 <=? doc_id) && (doc_id <? Z.of_nat (length corpus))) eqn:Hpos;
      [|destruct ((- Z.of_nat (length corpus) <=? doc_id) && (doc_id <? 0))
          eqn:Hneg]; simpl.
    + rewrite IH, length_alter. split; [|by intros [_ ?]].
      intros Hrest. split; [lia|done].
    + rewrite IH, length_alter. split; [|by intros [_ ?]].
      intros Hrest. split; [lia|done].
    + split; [done|]. intros [Hdoc _]. lia.
Qed.

(** X4. On a file whose header and data lines all parse, with D the declared
    number of documents, the reader returns a corpus exactly when every
    doc_id lies in [-D, D-1]; a declared count of zero or less allocates no
    document, so that any data line is refused. *)
Theorem reader_returns_iff_doc_ids_in_range
    (line1 line2 line3 : string) (rows : list string)
    (triples : list (Z * Z * Z)) (num_docs : Z) :
  Py.int line1 = Ok num_docs →
  is_ok (Py.int line2) →
  is_ok (Py.int line3) →
  Forall2 (λ line t, parse_row line = Ok t) rows triples →
  is_ok (read_corpus (line1 :: line2 :: line3 :: rows)) ↔
  Forall (λ '(doc_id, _, _),
            - Z.max 0 num_docs ≤ doc_id < Z.max 0 num_docs) triples.
Proof.
  intros H1 H2 H3 Hrows. rewrite read_corpus_header, H1. simpl.
  destruct (Py.int line2); [simpl|done]. destruct (Py.int line3); [simpl|done].
  rewrite (read_rows_ok_iff _ _ _ Hrows), length_replicate.
  by replace (Z.of_nat (Z.to_nat num_docs)) with (Z.max 0 num_docs) by lia.
Qed.

Lemma reader_returns_iff_doc_ids_in_range_witness :
  is_ok (read_corpus ["-2" +:+ nl; "1" +:+ nl; "1" +:+ nl; "0 1 1" +:+ nl]) ↔
  Forall (λ '(doc_id, _, _), - Z.max 0 (-2) ≤ doc_id < Z.max 0 (-2))
         [(0, 1, 1)].
Proof.
  apply (reader_returns_iff_doc_ids_in_range
           ("-2" +:+ nl) ("1" +:+ nl) ("1" +:+ nl) ["0 1 1" +:+ nl]).
  - vm_compute. reflexivity.
  - vm_compute. exact I.
  - vm_compute. exact I.
  - repeat constructor.
Defined.

(** ** The vocabulary loader: size and round trip *)

Lemma size_foldl_insert_enumerate (f : string → string) (fin : list string)
    (start : Z) (d : gmap Z string) :
  (∀ k, start ≤ k → d !! k = None) →
  size (foldl (λ d '(i, word), <[i := f word]> d) d (enumerate_from start fin))
  = (size d + length fin)%nat.
Proof.
  revert start d. induction fin as [|word fin IH]; intros start d Hfree; simpl.
  - lia.
  - rewrite (IH (start + 1)).
    + rewrite map_size_insert_None by (apply Hfree; lia). lia.
    + intros k Hk. rewrite lookup_insert_ne by lia. apply Hfree. lia.
Qed.

(** X5. The vocabulary has one entry per line of the file, blank lines
    included; an empty file gives the empty mapping. *)
Theorem vocabulary_size_is_line_count (text : string) :
  size (load_vocabulary (Py.file_lines (Py.universal_newlines text)))
  = length (Py.file_lines (Py.universal_newlines text)) ∧
  load_vocabulary (Py.file_lines (Py.universal_newlines EmptyString)) = ∅.
Proof.
  split; [|done]. unfold load_vocabulary.
  rewrite size_foldl_insert_enumerate; [by rewrite map_size_empty|].
  intros k _. apply lookup_empty.
Qed.

Lemma universal_newlines_token (token rest : string) :
  plain_token token = true →
  Py.universal_newlines (token +:+ nl +:+ rest)
  = token +:+ nl +:+ Py.universal_newlines rest.
Proof.
  induction token as [|c token IH]; [done|].
  intros [[_ Hc]%andb_true_iff Htoken]%andb_true_iff.
  change (Py.universal_newlines (String c (token +:+ nl +:+ rest))
          = String c (token +:+ nl +:+ Py.universal_newlines rest)).
  cbn [Py.universal_newlines].
  apply negb_true_iff in Hc as ->. by rewrite (IH Htoken).
Qed.

Lemma file_lines_token (token rest : string) :
  plain_token token = true →
  Py.file_lines (token +:+ nl +:+ rest) = (token +:+ nl) :: Py.file_lines rest.
Proof.
  induction token as [|c token IH]; [done|].
  intros [[Hc _]%andb_true_iff Htoken]%andb_true_iff.
  change (Py.file_lines (String c (token +:+ nl +:+ rest))
          = String c (token +:+ nl) :: Py.file_lines rest).
  cbn [Py.file_lines].
  apply negb_true_iff in Hc as ->. by rewrite (IH Htoken).
Qed.

Lemma replace_newline_token (token : string) :
  plain_token token = true →
  Py.replace Py.newline EmptyString (token +:+ nl) = token.
Proof.
  induction token as [|c token IH]; [done|].
  intros [[Hc _]%andb_true_iff Htoken]%andb_true_iff.
  change (Py.replace Py.newline "" (String c (token +:+ nl)) = String c token).
  cbn [Py.replace].
  apply negb_true_iff in Hc as ->. by rewrite (IH Htoken).
Qed.

Lemma lines_of_tokens (tokens : list string) :
  Forall (λ token, plain_token token = true) tokens →
  Py.file_lines (Py.universal_newlines (text_of_lines tokens))
  = (λ token, token +:+ nl) <$> tokens.
Proof.
  induction 1 as [|token tokens Htoken _ IH]; [done|]. cbn [text_of_lines foldr].
  rewrite universal_newlines_token by done.
  rewrite file_lines_token by done. cbn. f_equal. exact IH.
Qed.

(** X6. Round trip: for tokens that hold no line break, the file that has
    one token per line loads into the mapping from each position to its
    token, other white space in a token kept, and nothing else. *)
Theorem vocabulary_round_trip (tokens : list string) (k : Z) :
  Forall (λ token, plain_token token = true) tokens →
  load_vocabulary (Py.file_lines (Py.universal_newlines (text_of_lines tokens)))
    !! k
  = if bool_decide (0 ≤ k) then tokens !! Z.to_nat k else None.
Proof.
  intros Htokens. rewrite lines_of_tokens by done. unfold load_vocabulary.
  rewrite lookup_foldl_insert_enumerate, lookup_empty, length_fmap.
  rewrite Z.add_0_l, Z.sub_0_r, list_lookup_fmap.
  case_bool_decide as Hin.
  - rewrite bool_decide_eq_true_2 by lia.
    destruct (tokens !! Z.to_nat k) as [token|] eqn:Htoken; [simpl|done].
    f_equal. apply replace_newline_token.
    rewrite Forall_lookup in Htokens. by apply (Htokens _ _ Htoken).
  - case_bool_decide; [|done]. symmetry. apply lookup_ge_None. lia.
Qed.

Lemma vocabulary_round_trip_witness :
  load_vocabulary (Py.file_lines (Py.universal_newlines
                     (text_of_lines ["cat"; ""; "hot dog "])))
    !! 2
  = if bool_decide (0 ≤ 2) then ["cat"; ""; "hot dog "] !! Z.to_nat 2 else None.
Proof.
  apply (vocabulary_round_trip ["cat"; ""; "hot dog "] 2).
  repeat constructor.
Defined.

(** ** The inference loop *)

Lemma bind_ext {A B} (m : M A) (f g : A → M B) w :
  (∀ a w1, f a w1 = g a w1) → (m ≫= f) w = (m ≫= g) w.
Proof.
  intros Hfg. unfold mbind, M_bind. destruct (m w) as [[a|e] w1]; [|done].
  apply Hfg.
Qed.

Lemma set_row_overwrites (a1 a2 : matrix) (i : nat) (cols : Z) (values : list float) :
  length a1 = length a2 →
  take i a1 = take i a2 →
  match Np.set_row a1 i cols values, Np.set_row a2 i cols values with
  | Ok m1, Ok m2 =>
      length m1 = length a1 ∧ length m2 = length a2 ∧
      take (S i) m1 = take (S i) m2
  | Raise e1, Raise e2 => e1 = e2
  | _, _ => False
  end.
Proof.
  intros Hlen Htake. unfold Np.set_row.
  replace (i <? length a2)%nat with (i <? length a1)%nat by (by rewrite Hlen).
  destruct (i <? length a1)%nat eqn:Hi; [simpl|done].
  apply Nat.ltb_lt in Hi.
  assert (∀ row, length (<[i := row]> a1) = length a1
                 ∧ length (<[i := row]> a2) = length a2
                 ∧ take (S i) (<[i := row]> a1) = take (S i) (<[i := row]> a2))
    as Hinsert.
  { intros row. split; [apply length_insert|]. split; [apply length_insert|].
    rewrite (take_S_r (<[i := row]> a1) i row)
      by (apply list_lookup_insert_eq; lia).
    rewrite (take_S_r (<[i := row]> a2) i row)
      by (apply list_lookup_insert_eq; lia).
    by rewrite !take_insert_ge, Htake by lia. }
  destruct (Z.of_nat (length values) =? cols); [apply Hinsert|].
  destruct values as [|v [|]]; try done; apply Hinsert.
Qed.

Section loop.

Context `{G : Gensim}.

Lemma infer_topics_overwrites hdp cols docs :
  ∀ ind_doc (a1 a2 : matrix) w,
    length a1 = length a2 →
    take ind_doc a1 = take ind_doc a2 →
    (ind_doc + length docs)%nat = length a1 →
    infer_topics hdp cols ind_doc docs a1 w
    = infer_topics hdp cols ind_doc docs a2 w.
Proof.
  induction docs as [|bow docs IH]; intros ind_doc a1 a2 w Hlen Htake Hrows.
  - simpl in *. rewrite Nat.add_0_r in Hrows.
    rewrite take_ge in Htake by lia. rewrite take_ge in Htake by lia.
    by rewrite Htake.
  - cbn [infer_topics]. unfold mbind, M_bind.
    rewrite !infer_document_run. unfold inferred_row.
    destruct (HdpModel_inference hdp [bow]) as [res|]; [simpl|done].
    destruct (Np.first res) as [gammas|]; [simpl|done].
    pose proof (set_row_overwrites a1 a2 ind_doc cols (normalize gammas)
                  Hlen Htake) as Hset.
    destruct (Np.set_row a1 ind_doc cols (normalize gammas)) as [m1|e1] eqn:H1;
      destruct (Np.set_row a2 ind_doc cols (normalize gammas)) as [m2|e2];
      try done; [|by subst].
    destruct Hset as (Hlen1 & Hlen2 & Htake').
    simpl in Hrows. apply IH; [congruence|done|lia].
Qed.

End loop.

Lemma bind_lift {A B} (x : result A) (k : A → M B) w :
  (lift x ≫= k) w = match x with Ok a => k a w | Raise e => (Raise e, w) end.
Proof. unfold mbind, M_bind, lift. by destruct x. Qed.

Lemma bind_same {A B} (m1 m2 : M A) (k : A → M B) w :
  m1 w = m2 w → (m1 ≫= k) w = (m2 ≫= k) w.
Proof. unfold mbind, M_bind. by intros ->. Qed.

(** X7. The outcome of a run, the arrays it saves included, does not depend
    on what [np.empty] left in the cells of the document-topic array: every
    row is overwritten before the array is saved. *)
Theorem uninitialized_cells_never_show `{U : Utils} `{G : Gensim}
    (DOCWORD_CONCAT_FILENAME : string)
    (uninitialized uninitialized' : nat → nat → float)
    (bow_name exp_name : string) (force : bool) (params : HdpParams)
    (consolidate : bool) (w : world) :
  train_hdp DOCWORD_CONCAT_FILENAME uninitialized
            bow_name exp_name force params consolidate w
  = train_hdp DOCWORD_CONCAT_FILENAME uninitialized'
              bow_name exp_name force params consolidate w.
Proof.
  unfold train_hdp.
  do 6 (apply bind_ext; intros [] ?).
  apply bind_ext; intros fin ?. cbv zeta.
  apply bind_ext; intros corpus ?.
  apply bind_ext; intros training_corpus ?.
  apply bind_ext; intros dictionary ?.
  apply bind_ext; intros [] ?.
  apply bind_ext; intros hdp world.
  rewrite !bind_lift. unfold Np.empty.
  destruct (T params <? 0); [done|].
  apply bind_same. apply infer_topics_overwrites.
  - by rewrite !length_fmap.
  - done.
  - by rewrite length_fmap, length_seq.
Qed.

Lemma set_row_Ok (a m : matrix) (i : nat) (cols : Z) (values : list float) :
  Np.set_row a i cols values = Ok m →
  (i < length a)%nat ∧
  ∃ row, m = <[i := row]> a ∧
         (row = values ∨
          ∃ v, values = [v] ∧ row = replicate (Z.to_nat cols) v).
Proof.
  unfold Np.set_row.
  destruct (i <? length a)%nat eqn:Hi; [simpl|done].
  apply Nat.ltb_lt in Hi. intros Hset. split; [done|].
  destruct (Z.of_nat (length values) =? cols).
  - injection Hset as <-. exists values. by split; [|left].
  - destruct values as [|v [|]]; try done. injection Hset as <-.
    exists (replicate (Z.to_nat cols) v). split; [done|right]. by exists v.
Qed.

Section rows.

Context `{G : Gensim}.

Lemma infer_topics_rows hdp cols docs :
  ∀ ind_doc (document_topics m : matrix) w w',
    infer_topics hdp cols ind_doc docs document_topics w = (Ok m, w') →
    (∀ i, (i < ind_doc)%nat → m !! i = document_topics !! i) ∧
    ∀ j bow, docs !! j = Some bow →
      ∃ gammas rest,
        HdpModel_inference hdp [bow] = Ok (gammas :: rest) ∧
        (m !! (ind_doc + j)%nat = Some (normalize gammas) ∨
         ∃ v, normalize gammas = [v] ∧
              m !! (ind_doc + j)%nat = Some (replicate (Z.to_nat cols) v)).
Proof.
  induction docs as [|bow docs IH]; intros ind_doc document_topics m w w'.
  - intros [= <- <-]. by split.
  - cbn [infer_topics]. unfold mbind, M_bind. rewrite infer_document_run.
    destruct (inferred_row hdp cols ind_doc bow document_topics)
      as [document_topics'|] eqn:Hrow; [|done].
    intros [Hbelow Hrows]%IH.
    unfold inferred_row in Hrow.
    destruct (HdpModel_inference hdp [bow]) as [[|gammas rest]|] eqn:Hinf;
      try done. simpl in Hrow.
    apply set_row_Ok in Hrow as (Hind & row & -> & Hrow).
    split.
    + intros i Hi. rewrite Hbelow by lia. apply list_lookup_insert_ne. lia.
    + intros [|j] bow' Hbow'.
      * injection Hbow' as <-. exists gammas, rest. split; [done|].
        rewrite Nat.add_0_r, Hbelow by lia.
        rewrite list_lookup_insert_eq by done.
        destruct Hrow as [->|(v & Hv & ->)]; [by left|right]. by exists v.
      * rewrite Nat.add_succ_r. by apply (Hrows j bow').
Qed.

End rows.

(** X8. When the inference loop completes, the row of each document is the
    vector the inference returned for that document alone, divided by its
    sum (a vector of one value is spread over the T columns): no row depends
    on another document or on what the array held before. *)
Theorem each_row_comes_from_its_document `{G : Gensim}
    (hdp : HdpModel) (cols : Z) (docs : list SparseDocument)
    (document_topics m : matrix) (w w' : world) :
  infer_topics hdp cols 0 docs document_topics w = (Ok m, w') →
  ∀ j bow, docs !! j = Some bow →
    ∃ gammas rest,
      HdpModel_inference hdp [bow] = Ok (gammas :: rest) ∧
      (m !! j = Some (normalize gammas) ∨
       ∃ v, normalize gammas = [v] ∧
            m !! j = Some (replicate (Z.to_nat cols) v)).
Proof.
  intros [_ Hrows]%infer_topics_rows j bow Hbow.
  by apply (Hrows j bow).
Qed.

Lemma each_row_comes_from_its_document_witness :
  ∃ gammas rest,
    @HdpModel_inference toy_gensim 2 [[]] = Ok (gammas :: rest) ∧
    ([[nan; nan]; [0.5%float; 0.5%float]] !! 0%nat = Some (normalize gammas) ∨
     ∃ v, normalize gammas = [v] ∧
          [[nan; nan]; [0.5%float; 0.5%float]] !! 0%nat
          = Some (replicate (Z.to_nat 2) v)).
Proof.
  apply (@each_row_comes_from_its_document toy_gensim 2 2 [[]; [(0, 2)]]
           [[7%float; 7%float]; [7%float; 7%float]]
           [[nan; nan]; [0.5%float; 0.5%float]]
           toy_world
           (World (files toy_world)
                  [EvInference [[]]; EvInference [[(0, 2)]]])).
  - vm_compute. reflexivity.
  - reflexivity.
Defined.

(** ** The order of a run *)



(** The run of the witness does fail with the first array written. *)
Example run_fails_after_first_array :
  let run :=
    @train_hdp spec_utils toy_gensim_without_topics "docword_concat.bow_tm.txt"
      (λ _ _, 0%float) "b" "e" false toy_params false toy_world in
  run.1 = Raise (OtherError "no topics") ∧
  fst <$> saved (trace run.2) = [doctopic_output_path "b" "e"] ∧
  is_Some (files run.2 !! doctopic_output_path "b" "e") ∧
  files run.2 !! wordtopic_output_path "b" "e" = None.
Proof. vm_compute. eauto. Qed.

(** X10. Both corpora and the vocabulary are read before the model is
    built: once [HdpModel] has been called, which happens at most once, the
    run opens no file and calls the corpus reader no more; and no inference
    is called and nothing is saved before that call. *)
Theorem inputs_are_read_before_training `{U : Utils} `{G : Gensim}
    (DOCWORD_CONCAT_FILENAME : string) (uninitialized : nat → nat → float)
    (bow_name exp_name : string) (force : bool) (params : HdpParams)
    (consolidate : bool) (w : world) (r : result ()) (w' : world) :
  train_hdp DOCWORD_CONCAT_FILENAME uninitialized
            bow_name exp_name force params consolidate w = (r, w') →
  ∃ evs, trace w' = trace w ++ evs ∧
    ((trained_on evs = [] ∧ inference_calls evs = [] ∧ saved evs = []) ∨
     ∃ before training_corpus after,
       evs = before ++ EvHdpModel training_corpus :: after ∧
       trained_on before = [] ∧ inference_calls before = [] ∧
       saved before = [] ∧
       trained_on after = [] ∧ opened after = [] ∧ corpora_read after = []).
Proof.
  intros Hrun. apply train_hdp_run in Hrun as (evs & Htrace & Hshape).
  exists evs. split; [done|].
  inversion Hshape as
    [e|e|e|corpus e Hc|corpus tc e Htc|corpus tc tried e Htc Htried
    |corpus tc m e Htc Hm|corpus tc m topics Htc Hm]; subst;
    try (by left);
    try (left; destruct consolidate; by trace_proj).
  - right. eexists _, tc, _. split; [done|].
    destruct consolidate; by trace_proj.
  - right. eexists _, tc, _. split; [done|].
    destruct consolidate; by trace_proj.
  - right. eexists _, tc, _. split; [done|].
    destruct consolidate; by trace_proj.
Qed.

Lemma inputs_are_read_before_training_witness :
  ∃ evs, trace toy_run_consolidated.2 = trace toy_world_consolidated ++ evs ∧
    ((trained_on evs = [] ∧ inference_calls evs = [] ∧ saved evs = []) ∨
     ∃ before training_corpus after,
       evs = before ++ EvHdpModel training_corpus :: after ∧
       trained_on before = [] ∧ inference_calls before = [] ∧
       saved before = [] ∧
       trained_on after = [] ∧ opened after = [] ∧ corpora_read after = []).
Proof.
  apply (@inputs_are_read_before_training spec_utils toy_gensim
           "docword_concat.bow_tm.txt" (λ _ _, 0%float)
           "b" "e" false toy_params true toy_world_consolidated
           toy_run_consolidated.1).
  unfold toy_run_consolidated. apply surjective_pairing.
Defined.

(** ** The paths *)

Lemma path_join_relative (a b : string) :
  match b with String c _ => Ascii.eqb c "/" = false | EmptyString => True end →
  Py.path_join a b = dir_prefix a +:+ b.
Proof.
  assert (∀ x y z : string, (x +:+ y) +:+ z = x +:+ y +:+ z) as Hassoc.
  { intros x y z. induction x as [|c x IH]; [done|].
    change (String c ((x +:+ y) +:+ z) = String c (x +:+ y +:+ z)).
    by rewrite IH. }
  unfold Py.path_join, dir_prefix. destruct b as [|c b].
  - intros _. destruct a; [done|]. by destruct (Py.endswith_sep _); rewrite ?Hassoc.
  - intros Hc.
    destruct c as [[] [] [] [] [] [] [] []]; try discriminate Hc;
      (destruct a; [done|]; by destruct (Py.endswith_sep _); rewrite ?Hassoc).
Qed.

Lemma append_inv_head (p a b : string) : p +:+ a = p +:+ b → a = b.
Proof.
  induction p as [|c p IH]; [done|].
  change (String c (p +:+ a) = String c (p +:+ b) → a = b).
  intros [= H]. by apply IH.
Qed.

Lemma last_char_append (p s : string) :
  s ≠ EmptyString → last_char (p +:+ s) = last_char s.
Proof.
  intros Hs. induction p as [|c p IH]; [done|].
  change (last_char (String c (p +:+ s)) = last_char s).
  destruct (p +:+ s) as [|d rest] eqn:Hps.
  - destruct p; [done|discriminate Hps].
  - by rewrite <- IH.
Qed.

Lemma output_paths_differ (bow_name exp_name : string) :
  doctopic_output_path bow_name exp_name
  ≠ wordtopic_output_path bow_name exp_name.
Proof.
  unfold doctopic_output_path, wordtopic_output_path.
  rewrite (path_join_relative _ DOCTOPIC_FILENAME),
    (path_join_relative _ WORDTOPIC_FILENAME) by done.
  by intros [=]%append_inv_head.
Qed.

(** X11. Whatever the names of the bag of words and of the experiment, the
    two output paths differ from each other and from the paths of the
    vocabulary and document-word files (of any bag of words): saving an
    array, or removing an existing output, never touches these inputs. *)
Theorem output_paths_are_no_input_paths (bow_name exp_name bow_name' : string) :
  doctopic_output_path bow_name exp_name
    ≠ wordtopic_output_path bow_name exp_name ∧
  doctopic_output_path bow_name exp_name ≠ words_input_path bow_name' ∧
  doctopic_output_path bow_name exp_name ≠ docword_input_path bow_name' ∧
  wordtopic_output_path bow_name exp_name ≠ words_input_path bow_name' ∧
  wordtopic_output_path bow_name exp_name ≠ docword_input_path bow_name'.
Proof.
  unfold doctopic_output_path, wordtopic_output_path, words_input_path,
    docword_input_path.
  rewrite !(path_join_relative _ DOCTOPIC_FILENAME),
    !(path_join_relative _ WORDTOPIC_FILENAME),
    !(path_join_relative _ VOCAB_FILENAME),
    !(path_join_relative _ DOCWORD_FILENAME) by done.
  split; [by intros [=]%append_inv_head|].
  repeat split; intros Heq; apply (f_equal last_char) in Heq;
    rewrite !last_char_append in Heq by done; discriminate Heq.
Qed.

(** ** The files a completed run leaves *)

Lemma nothing_saved_refl w : nothing_saved w w.
Proof. exists []. by rewrite app_nil_r. Qed.

Lemma nothing_saved_step w w1 w2 evs :
  nothing_saved w w1 → trace w2 = trace w1 ++ evs → saved evs = [] →
  nothing_saved w w2.
Proof.
  intros (evs1 & Htrace & Hsaved) Hstep Hevs. exists (evs1 ++ evs).
  by rewrite Hstep, Htrace, app_assoc, saved_app, Hsaved, Hevs.
Qed.

Lemma nothing_saved_same w w1 w2 :
  nothing_saved w w1 → trace w2 = trace w1 → nothing_saved w w2.
Proof.
  intros Hw Hstep. apply (nothing_saved_step w w1 w2 []); [done| |done].
  by rewrite app_nil_r.
Qed.

(** X12. A run that completes leaves, at the two output paths, exactly the
    two arrays it saved: the second save does not replace the first. *)
Theorem completed_run_leaves_both_arrays `{U : Utils} `{G : Gensim}
    (DOCWORD_CONCAT_FILENAME : string) (uninitialized : nat → nat → float)
    (bow_name exp_name : string) (force : bool) (params : HdpParams)
    (consolidate : bool) (w w' : world) :
  train_hdp DOCWORD_CONCAT_FILENAME uninitialized
            bow_name exp_name force params consolidate w = (Ok (), w') →
  ∃ evs m topics,
    trace w' = trace w ++ evs ∧
    saved evs = [(doctopic_output_path bow_name exp_name, m);
                 (wordtopic_output_path bow_name exp_name, topics)] ∧
    files w' !! doctopic_output_path bow_name exp_name = Some (NpyFile m) ∧
    files w' !! wordtopic_output_path bow_name exp_name
      = Some (NpyFile topics).
Proof.
  unfold train_hdp. intros Hrun.
  pose proof (nothing_saved_refl w) as Hquiet.
  apply bind_run in Hrun as [(e & _ & [=])|([] & w1 & H1 & Hrun)].
  apply on_files_trace in H1.
  apply (nothing_saved_same _ _ _ Hquiet) in H1. clear Hquiet.
  apply bind_run in Hrun as [(e & _ & [=])|([] & w2 & H2 & Hrun)].
  apply on_files_trace in H2. apply (nothing_saved_same _ _ _ H1) in H2.
  apply bind_run in Hrun as [(e & _ & [=])|([] & w3 & H3 & Hrun)].
  apply check_if_trace in H3. apply (nothing_saved_same _ _ _ H2) in H3.
  apply bind_run in Hrun as [(e & _ & [=])|([] & w4 & H4 & Hrun)].
  apply on_files_trace in H4. apply (nothing_saved_same _ _ _ H3) in H4.
  apply bind_run in Hrun as [(e & _ & [=])|([] & w5 & H5 & Hrun)].
  apply on_files_trace in H5. apply (nothing_saved_same _ _ _ H4) in H5.
  apply bind_run in Hrun as [(e & _ & [=])|([] & w6 & H6 & Hrun)].
  apply on_files_trace in H6. apply (nothing_saved_same _ _ _ H5) in H6.
  apply bind_run in Hrun as [(e & _ & [=])|(fin & w7 & H7 & Hrun)].
  apply open_text_trace in H7.
  apply (nothing_saved_step _ _ _ _ H6) in H7; [|done].
  apply bind_run in Hrun as [(e & _ & [=])|(corpus & w8 & H8 & Hrun)].
  apply create_gensim_corpus_trace in H8.
  apply (nothing_saved_step _ _ _ _ H7) in H8; [|done].
  apply bind_run in Hrun as [(e & _ & [=])|(training_corpus & w9 & H9 & Hrun)].
  assert (nothing_saved w w9) as Hloaded.
  { apply read_if_trace in H9 as [(_ & H9)|(_ & _ & H9)].
    - by apply (nothing_saved_step _ _ _ _ H8) in H9.
    - by apply (nothing_saved_same _ _ _ H8) in H9. }
  clear H1 H2 H3 H4 H5 H6 H7 H8 H9.
  apply bind_run in Hrun as [(e & _ & [=])|(dictionary & w10 & H10 & Hrun)].
  apply lift_run in H10 as [_ ->].
  apply bind_run in Hrun as [(e & _ & [=])|([] & w11 & H11 & Hrun)].
  apply emit_trace in H11.
  apply (nothing_saved_step _ _ _ _ Hloaded) in H11; [|done].
  apply bind_run in Hrun as [(e & _ & [=])|(hdp & w12 & H12 & Hrun)].
  apply lift_run in H12 as [_ ->].
  apply bind_run in Hrun as [(e & _ & [=])|(document_topics & w13 & H13 & Hrun)].
  apply lift_run in H13 as [_ ->].
  apply bind_run in Hrun as [(e & _ & [=])|(m & w14 & H14 & Hrun)].
  apply infer_topics_run in H14 as (_ & tried & _ & H14 & _).
  apply (nothing_saved_step _ _ _ _ H11) in H14;
    [|apply saved_inference_events].
  destruct H14 as (evs & Htrace & Hsaved).
  apply bind_run in Hrun as [(e & [=] & _)|([] & w15 & H15 & Hrun)].
  injection H15 as <-.
  apply bind_run in Hrun as [(e & _ & [=])|(topics & w16 & H16 & Hrun)].
  apply lift_run in H16 as [_ ->].
  injection Hrun as <-. simpl.
  exists (evs ++ [EvSave (doctopic_output_path bow_name exp_name) m;
                  EvSave (wordtopic_output_path bow_name exp_name) topics]),
    m, topics.
  split; [by rewrite Htrace, <- !app_assoc|].
  split; [by rewrite saved_app, Hsaved|].
  split; [|apply lookup_insert_eq].
  rewrite lookup_insert_ne; [apply lookup_insert_eq|].
  intros Heq. symmetry in Heq.
  by apply (output_paths_differ bow_name exp_name).
Qed.

Lemma completed_run_leaves_both_arrays_witness :
  ∃ evs m topics,
    trace toy_run.2 = trace toy_world ++ evs ∧
    saved evs = [(doctopic_output_path "b" "e", m);
                 (wordtopic_output_path "b" "e", topics)] ∧
    files toy_run.2 !! doctopic_output_path "b" "e" = Some (NpyFile m) ∧
    files toy_run.2 !! wordtopic_output_path "b" "e" = Some (NpyFile topics).
Proof.
  apply (@completed_run_leaves_both_arrays spec_utils toy_gensim
           "docword_concat.bow_tm.txt" (λ _ _, 0%float)
           "b" "e" false toy_params false toy_world).
  vm_compute. reflexivity.
Defined.

(** * Runs, by their values *)

Lemma open_text_Ok path w fin w1 :
  open_text path w = (Ok fin, w1) →
  holds_text (files w) path fin ∧
  files w1 = files w ∧ trace w1 = trace w ++ [EvOpen path].
Proof.
  unfold open_text. destruct (files w !! path) as [[text|]|] eqn:Hfile; try done.
  intros [= <- <-]. split; [|done]. by exists text.
Qed.

Lemma create_gensim_corpus_Ok path w corpus w1 :
  create_gensim_corpus path w = (Ok corpus, w1) →
  holds_corpus (files w) path corpus ∧
  files w1 = files w ∧
  trace w1 = trace w ++ [EvOpen path; EvCorpus path (Ok corpus)].
Proof.
  unfold create_gensim_corpus.
  destruct ((fin ← open_text path; lift (read_corpus fin)) w) as [r2 w2] eqn:Hrun.
  intros [= -> <-]. simpl.
  apply bind_run in Hrun as [(e & _ & [=])|(fin & w3 & Hopen & Hlift)].
  apply open_text_Ok in Hopen as ((text & Hfile & ->) & Hfiles & Htrace).
  apply lift_run in Hlift as [Hread ->].
  split; [by exists text|]. split; [done|]. by rewrite Htrace, <- app_assoc.
Qed.

(** A run that raised before the model was asked for. *)
Ltac before_model :=
  finish_run; left; split; [by eexists|try done].

Section stages.

Context `{U : Utils} `{G : Gensim}.
Variable DOCWORD_CONCAT_FILENAME : string.
Variable uninitialized : nat → nat → float.

(** A run, stage by stage. It raises before the model is asked for, or it
    has read the vocabulary [fin] and the corpora from the files [fs] the
    helpers left and built the dictionary from the training corpus; the
    outcome is then decided by the model constructor on that corpus, by the
    inference loop over the full corpus with that model, and by
    [get_topics]. *)
Lemma train_hdp_stages bow_name exp_name force params consolidate w r w' :
  train_hdp DOCWORD_CONCAT_FILENAME uninitialized
            bow_name exp_name force params consolidate w = (r, w') →
  ∃ evs, trace w' = trace w ++ evs ∧
    (((∃ e, r = Raise e) ∧ trained_on evs = [])
     ∨ ∃ fs fin corpus training_corpus dictionary rest,
         holds_text fs (words_input_path bow_name) fin ∧
         holds_corpus fs (docword_input_path bow_name) corpus ∧
         (if consolidate
          then holds_corpus fs
                 (docword_concat_input_path DOCWORD_CONCAT_FILENAME bow_name)
                 training_corpus
          else training_corpus = corpus) ∧
         Dictionary_from_corpus training_corpus (load_vocabulary fin)
           = Ok dictionary ∧
         evs = corpus_events DOCWORD_CONCAT_FILENAME bow_name consolidate
                             corpus training_corpus
               ++ EvHdpModel training_corpus :: rest ∧
         ends_from_model (doctopic_output_path bow_name exp_name)
                         (wordtopic_output_path bow_name exp_name)
                         params corpus training_corpus dictionary fs
                         r rest (files w')).
Proof.
  unfold train_hdp. intros Hrun.
  apply bind_run in Hrun as [(e & H1 & ->)|([] & w1 & H1 & Hrun)];
    apply on_files_trace in H1; [before_model|].
  apply bind_run in Hrun as [(e & H2 & ->)|([] & w2 & H2 & Hrun)];
    apply on_files_trace in H2; [before_model|].
  apply bind_run in Hrun as [(e & H3 & ->)|([] & w3 & H3 & Hrun)];
    apply check_if_trace in H3; [before_model|].
  apply bind_run in Hrun as [(e & H4 & ->)|([] & w4 & H4 & Hrun)];
    apply on_files_trace in H4; [before_model|].
  apply bind_run in Hrun as [(e & H5 & ->)|([] & w5 & H5 & Hrun)];
    apply on_files_trace in H5; [before_model|].
  apply bind_run in Hrun as [(e & H6 & ->)|([] & w6 & H6 & Hrun)];
    apply on_files_trace in H6; [before_model|].
  assert (trace w6 = trace w) as Hchecks by congruence.
  clear H1 H2 H3 H4 H5 H6.
  apply bind_run in Hrun as [(e & H7 & ->)|(fin & w7 & H7 & Hrun)].
  { apply open_text_trace in H7. before_model. }
  apply open_text_Ok in H7 as (Hvocab & Hfiles7 & Htrace7).
  apply bind_run in Hrun as [(e & H8 & ->)|(corpus & w8 & H8 & Hrun)].
  { apply create_gensim_corpus_trace in H8. before_model. }
  apply create_gensim_corpus_Ok in H8 as (Hcorpus & Hfiles8 & Htrace8).
  apply bind_run in Hrun as [(e & H9 & ->)|(training_corpus & w9 & H9 & Hrun)].
  { apply read_if_trace in H9 as [(-> & H9)|(_ & [=] & _)]. before_model. }
  assert ((if consolidate
           then holds_corpus (files w6)
                  (docword_concat_input_path DOCWORD_CONCAT_FILENAME bow_name)
                  training_corpus
           else training_corpus = corpus)
          ∧ files w9 = files w6
          ∧ trace w9 = trace w ++
              corpus_events DOCWORD_CONCAT_FILENAME bow_name consolidate
                            corpus training_corpus)
    as (Htraining & Hfiles9 & Htrace9).
  { unfold corpus_events. destruct consolidate.
    - apply create_gensim_corpus_Ok in H9 as (Hconcat & Hfiles9 & Htrace9).
      rewrite Hfiles8, Hfiles7 in Hconcat. split; [done|].
      split; [congruence|].
      by rewrite Htrace9, Htrace8, Htrace7, Hchecks, <- !app_assoc.
    - injection H9 as <- <-. split; [done|]. split; [congruence|].
      by rewrite Htrace8, Htrace7, Hchecks, <- !app_assoc, app_nil_r. }
  rewrite Hfiles7 in Hcorpus. clear H9 Hfiles7 Hfiles8 Htrace7 Htrace8 Hchecks.
  apply bind_run in Hrun as [(e & H10 & ->)|(dictionary & w10 & H10 & Hrun)];
    apply lift_run in H10 as [Hdictionary ->].
  { eexists. split; [exact Htrace9|]. left. split; [by eexists|].
    unfold corpus_events. by destruct consolidate. }
  apply bind_run in Hrun as [(e & [=] & _)|([] & w11 & H11 & Hrun)].
  injection H11 as <-.
  (* from here on the model has been asked for *)
  cut (∃ rest,
         trace w' = (trace w9 ++ [EvHdpModel training_corpus]) ++ rest ∧
         ends_from_model (doctopic_output_path bow_name exp_name)
                         (wordtopic_output_path bow_name exp_name)
                         params corpus training_corpus dictionary (files w6)
                         r rest (files w')).
  { intros (rest & Htrace & Hends). eexists. split.
    - rewrite Htrace, Htrace9, <- !app_assoc. reflexivity.
    - right.
      by exists (files w6), fin, corpus, training_corpus, dictionary, rest. }
  unfold ends_from_model.
  apply bind_run in Hrun as [(e & H12 & ->)|(hdp & w12 & H12 & Hrun)];
    apply lift_run in H12 as [Hhdp ->]; rewrite <- Hhdp.
  { exists []. by rewrite app_nil_r. }
  apply bind_run in Hrun as [(e & H13 & ->)|(document_topics & w13 & H13 & Hrun)];
    apply lift_run in H13 as [Hempty ->].
  { exists []. split; [by rewrite app_nil_r|].
    left. exists e, []. split; [done|]. split; [apply prefix_nil|]. done. }
  symmetry in Hempty. apply empty_shape in Hempty as [Hcols Hshape].
  apply bind_run in Hrun as [(e & H14 & ->)|(m & w14 & H14 & Hrun)].
  { apply infer_topics_run in H14 as (Hfiles14 & tried & Htried & Htrace14 & _).
    exists (inference_events tried). split; [done|].
    left. exists e, tried. simpl in Hfiles14. by rewrite Hfiles14, Hfiles9. }
  pose proof (infer_topics_rows _ _ _ _ _ _ _ _ H14) as [_ Hrows].
  apply infer_topics_run in H14 as (Hfiles14 & tried & _ & Htrace14 & Hok).
  destruct (Hok m eq_refl) as [-> Hm]. specialize (Hm _ Hcols Hshape).
  simpl in Hfiles14, Htrace14.
  assert (rows_inferred hdp (T params) corpus m) as Hinferred by done.
  apply bind_run in Hrun as [(e & [=] & _)|([] & w15 & H15 & Hrun)].
  injection H15 as <-.
  apply bind_run in Hrun as [(e & H16 & ->)|(topics & w16 & H16 & Hrun)];
    apply lift_run in H16 as [Htopics ->].
  { eexists. split; [simpl; rewrite Htrace14, <- !app_assoc; reflexivity|].
    right. exists m. split; [done|]. rewrite <- Htopics.
    simpl. by rewrite Hfiles14, Hfiles9. }
  injection Hrun as <- <-.
  eexists. split; [simpl; rewrite Htrace14, <- !app_assoc; reflexivity|].
  right. exists m. split; [done|]. rewrite <- Htopics.
  simpl. by rewrite Hfiles14, Hfiles9.
Qed.

End stages.

Section completed.

Context `{U : Utils} `{G : Gensim}.
Variable DOCWORD_CONCAT_FILENAME : string.
Variable uninitialized : nat → nat → float.

(** A completed run went through every stage. *)
Lemma train_hdp_completed bow_name exp_name force params consolidate w w' :
  train_hdp DOCWORD_CONCAT_FILENAME uninitialized
            bow_name exp_name force params consolidate w = (Ok (), w') →
  ∃ fs fin corpus training_corpus dictionary hdp m topics,
    holds_text fs (words_input_path bow_name) fin ∧
    holds_corpus fs (docword_input_path bow_name) corpus ∧
    (if consolidate
     then holds_corpus fs
            (docword_concat_input_path DOCWORD_CONCAT_FILENAME bow_name)
            training_corpus
     else training_corpus = corpus) ∧
    Dictionary_from_corpus training_corpus (load_vocabulary fin)
      = Ok dictionary ∧
    HdpModel_new training_corpus dictionary params = Ok hdp ∧
    rows_inferred hdp (T params) corpus m ∧
    HdpModel_get_topics hdp = Ok topics ∧
    files w' = <[wordtopic_output_path bow_name exp_name := NpyFile topics]>
                 (<[doctopic_output_path bow_name exp_name := NpyFile m]> fs) ∧
    trace w' = trace w ++
      (corpus_events DOCWORD_CONCAT_FILENAME bow_name consolidate
                     corpus training_corpus
       ++ EvHdpModel training_corpus :: inference_events corpus
       ++ [EvSave (doctopic_output_path bow_name exp_name) m;
           EvSave (wordtopic_output_path bow_name exp_name) topics]).
Proof.
  intros (evs & Htrace & [[[e [=]] _]|Hstage])%train_hdp_stages.
  destruct Hstage as (fs & fin & corpus & training_corpus & dictionary & rest
                      & Hvocab & Hcorpus & Htraining & Hdictionary & -> & Hends).
  unfold ends_from_model in Hends.
  destruct (HdpModel_new training_corpus dictionary params) as [hdp|e] eqn:Hhdp;
    [|by destruct Hends].
  destruct Hends as [(e & tried & [=] & _)|(m & Hrows & Hends)].
  destruct (HdpModel_get_topics hdp) as [topics|e] eqn:Htopics;
    [|by destruct Hends].
  destruct Hends as (_ & -> & Hfiles).
  by exists fs, fin, corpus, training_corpus, dictionary, hdp, m, topics.
Qed.

End completed.

(** C7. Without consolidation no second corpus file is read and the
    training corpus is the full corpus. A run either raises before it asks
    for the model, or it has read the vocabulary and, from the document-word
    file, the corpus; the dictionary is then built from that corpus and the
    model is constructed from that corpus and that dictionary. If the
    constructor raises, so does the run, before any inference. If it returns
    a model, the inference calls go through the documents of the same
    corpus, in order, and when the run completes every row of the saved
    document-topic array is what that model inferred for the document of
    that corpus at the same position. The run is the same whatever the name
    of the consolidated file. *)
Theorem training_corpus_is_full_corpus `{U : Utils} `{G : Gensim}
    (DOCWORD_CONCAT_FILENAME : string) (uninitialized : nat → nat → float)
    (bow_name exp_name : string) (force : bool) (params : HdpParams)
    (w : world) (r : result ()) (w' : world) :
  train_hdp DOCWORD_CONCAT_FILENAME uninitialized
            bow_name exp_name force params false w = (r, w') →
  (∃ evs, trace w' = trace w ++ evs ∧
    opened evs `prefix_of` [words_input_path bow_name;
                            docword_input_path bow_name] ∧
    (((∃ e, r = Raise e) ∧
      trained_on evs = [] ∧ inference_calls evs = [] ∧ saved evs = [])
     ∨ ∃ fs fin corpus dictionary,
         holds_text fs (words_input_path bow_name) fin ∧
         holds_corpus fs (docword_input_path bow_name) corpus ∧
         Dictionary_from_corpus corpus (load_vocabulary fin) = Ok dictionary ∧
         corpora_read evs = [(docword_input_path bow_name, Ok corpus)] ∧
         trained_on evs = [corpus] ∧
         inference_calls evs `prefix_of` ((λ bow, [bow]) <$> corpus) ∧
         match HdpModel_new corpus dictionary params with
         | Raise e => r = Raise e ∧ inference_calls evs = [] ∧ saved evs = []
         | Ok hdp =>
             r = Ok () →
             ∃ m topics,
               rows_inferred hdp (T params) corpus m ∧
               HdpModel_get_topics hdp = Ok topics ∧
               inference_calls evs = (λ bow, [bow]) <$> corpus ∧
               saved evs = [(doctopic_output_path bow_name exp_name, m);
                            (wordtopic_output_path bow_name exp_name, topics)] ∧
               files w'
               = <[wordtopic_output_path bow_name exp_name := NpyFile topics]>
                   (<[doctopic_output_path bow_name exp_name := NpyFile m]> fs)
         end)) ∧
  ∀ other_filename,
    train_hdp other_filename uninitialized
              bow_name exp_name force params false w = (r, w').
Proof.
  intros Hrun. split; [|intros other_filename; by rewrite <- Hrun].
  pose proof Hrun as Hrun'.
  apply train_hdp_run in Hrun' as (evs' & Htrace' & Hshape).
  apply train_hdp_stages in Hrun as (evs & Htrace & Hstage).
  assert (evs' = evs) as -> by (apply (app_inv_head (trace w)); congruence).
  clear Htrace'. exists evs. split; [done|].
  destruct Hstage as [[[e ->] Htrained]
    |(fs & fin & corpus & tc & dictionary & rest
      & Hvocab & Hcorpus & -> & Hdictionary & -> & Hends)].
  - inversion Hshape as
      [e'|e'|e'|corpus e' Hc|corpus tc e' Htc|corpus tc tried e' Htc Htried
      |corpus tc m e' Htc Hm|]; subst;
      try discriminate Hc; try (rewrite (Htc eq_refl) in Htrained |- *);
      try (revert Htrained; trace_proj; discriminate);
      trace_proj.
    + split; [apply prefix_nil|]. left. split; [by eexists|done].
    + split; [by exists [docword_input_path bow_name]|].
      left. split; [by eexists|done].
    + split; [done|]. left. split; [by eexists|done].
    + split; [done|]. left. split; [by eexists|done].
  - unfold ends_from_model in Hends.
    destruct (HdpModel_new corpus dictionary params) as [hdp|e] eqn:Hhdp.
    + destruct Hends as [(e & tried & -> & Htried & -> & Hfiles)
                        |(m & Hrows & Hends)].
      * split; [by trace_proj|]. right. exists fs, fin, corpus, dictionary.
        rewrite Hhdp. trace_proj. split_and!; try done.
        by apply fmap_prefix.
      * destruct (HdpModel_get_topics hdp) as [topics|e] eqn:Htopics;
          destruct Hends as (-> & -> & Hfiles);
          (split; [by trace_proj|]); right; exists fs, fin, corpus, dictionary;
          rewrite Hhdp; trace_proj; split_and!; try done.
        intros _. by exists m, topics.
    + destruct Hends as (-> & -> & Hfiles).
      split; [by trace_proj|]. right. exists fs, fin, corpus, dictionary.
      rewrite Hhdp. trace_proj. split_and!; try done. apply prefix_nil.
Qed.

Lemma training_corpus_is_full_corpus_witness :
  (∃ evs, trace recorded_run.2 = trace toy_world ++ evs ∧
    opened evs `prefix_of` [words_input_path "b"; docword_input_path "b"] ∧
    (((∃ e, Ok () = Raise e) ∧
      trained_on evs = [] ∧ inference_calls evs = [] ∧ saved evs = [])
     ∨ ∃ fs fin corpus dictionary,
         holds_text fs (words_input_path "b") fin ∧
         holds_corpus fs (docword_input_path "b") corpus ∧
         @Dictionary_from_corpus recording_gensim corpus (load_vocabulary fin)
           = Ok dictionary ∧
         corpora_read evs = [(docword_input_path "b", Ok corpus)] ∧
         trained_on evs = [corpus] ∧
         inference_calls evs `prefix_of` ((λ bow, [bow]) <$> corpus) ∧
         match @HdpModel_new recording_gensim corpus dictionary toy_params with
         | Raise e =>
             Ok () = Raise e ∧ inference_calls evs = [] ∧ saved evs = []
         | Ok hdp =>
             Ok () = Ok () →
             ∃ m topics,
               @rows_inferred recording_gensim hdp 2 corpus m ∧
               @HdpModel_get_topics recording_gensim hdp = Ok topics ∧
               inference_calls evs = (λ bow, [bow]) <$> corpus ∧
               saved evs = [(doctopic_output_path "b" "e", m);
                            (wordtopic_output_path "b" "e", topics)] ∧
               files recorded_run.2
               = <[wordtopic_output_path "b" "e" := NpyFile topics]>
                   (<[doctopic_output_path "b" "e" := NpyFile m]> fs)
         end)) ∧
  ∀ other_filename,
    @train_hdp spec_utils recording_gensim other_filename (λ _ _, 0%float)
               "b" "e" false toy_params false toy_world
    = (Ok (), recorded_run.2).
Proof.
  apply (@training_corpus_is_full_corpus spec_utils recording_gensim
           "docword_concat.bow_tm.txt" (λ _ _, 0%float)
           "b" "e" false toy_params toy_world (Ok ()) recorded_run.2).
  vm_compute. reflexivity.
Defined.

(** The rows of that run: the model was built from the three documents and
    the three words of the full corpus and its vocabulary. *)
Example recorded_run_rows :
  files recorded_run.2 !! doctopic_output_path "b" "e"
  = Some (NpyFile [[nan; nan]; normalize [3%float; 3%float];
                   normalize [3%float; 3%float]]).
Proof. vm_compute. reflexivity. Qed.

(** C8. A run that completes, with or without a consolidated training
    corpus, saved a document-topic array with one row per document of the
    corpus read from the document-word file and T columns, and row j is what
    the fitted model inferred for document j of that corpus, divided by its
    sum; the inference was called once for each of these documents, in
    order, and for nothing else. With consolidation the model that inferred
    the rows was constructed from the other corpus, the one read from the
    consolidated file, and from the dictionary of that corpus. *)
Theorem one_row_per_document_of_full_corpus `{U : Utils} `{G : Gensim}
    (DOCWORD_CONCAT_FILENAME : string) (uninitialized : nat → nat → float)
    (bow_name exp_name : string) (force : bool) (params : HdpParams)
    (consolidate : bool) (w w' : world) :
  train_hdp DOCWORD_CONCAT_FILENAME uninitialized
            bow_name exp_name force params consolidate w = (Ok (), w') →
  ∃ evs fs fin corpus training_corpus dictionary hdp m topics,
    trace w' = trace w ++ evs ∧
    holds_text fs (words_input_path bow_name) fin ∧
    holds_corpus fs (docword_input_path bow_name) corpus ∧
    (if consolidate
     then holds_corpus fs
            (docword_concat_input_path DOCWORD_CONCAT_FILENAME bow_name)
            training_corpus
     else training_corpus = corpus) ∧
    Dictionary_from_corpus training_corpus (load_vocabulary fin)
      = Ok dictionary ∧
    HdpModel_new training_corpus dictionary params = Ok hdp ∧
    corpora_read evs
      = (docword_input_path bow_name, Ok corpus)
        :: (if consolidate
            then [(docword_concat_input_path DOCWORD_CONCAT_FILENAME bow_name,
                   Ok training_corpus)]
            else []) ∧
    trained_on evs = [training_corpus] ∧
    inference_calls evs = (λ bow, [bow]) <$> corpus ∧
    rows_inferred hdp (T params) corpus m ∧
    has_shape (length corpus) (T params) m ∧
    saved evs = [(doctopic_output_path bow_name exp_name, m);
                 (wordtopic_output_path bow_name exp_name, topics)] ∧
    files w' !! doctopic_output_path bow_name exp_name = Some (NpyFile m).
Proof.
  intros (fs & fin & corpus & training_corpus & dictionary & hdp & m & topics
          & Hvocab & Hcorpus & Htraining & Hdictionary & Hhdp & Hrows
          & Htopics & Hfiles & Htrace)%train_hdp_completed.
  eexists _, fs, fin, corpus, training_corpus, dictionary, hdp, m, topics.
  split; [exact Htrace|].
  split_and!; try done.
  - destruct consolidate; by trace_proj.
  - destruct consolidate; by trace_proj.
  - destruct consolidate; by trace_proj.
  - apply Hrows.
  - destruct consolidate; by trace_proj.
  - rewrite Hfiles, lookup_insert_ne; [apply lookup_insert_eq|].
    intros Heq. symmetry in Heq.
    by apply (output_paths_differ bow_name exp_name).
Qed.

Lemma one_row_per_document_of_full_corpus_witness :
  ∃ evs fs fin corpus training_corpus dictionary hdp m topics,
    trace recorded_run_consolidated.2 = trace toy_world_consolidated ++ evs ∧
    holds_text fs (words_input_path "b") fin ∧
    holds_corpus fs (docword_input_path "b") corpus ∧
    holds_corpus fs (docword_concat_input_path "docword_concat.bow_tm.txt" "b")
                 training_corpus ∧
    @Dictionary_from_corpus recording_gensim training_corpus (load_vocabulary fin)
      = Ok dictionary ∧
    @HdpModel_new recording_gensim training_corpus dictionary toy_params = Ok hdp ∧
    corpora_read evs
      = [(docword_input_path "b", Ok corpus);
         (docword_concat_input_path "docword_concat.bow_tm.txt" "b",
          Ok training_corpus)] ∧
    trained_on evs = [training_corpus] ∧
    inference_calls evs = (λ bow, [bow]) <$> corpus ∧
    @rows_inferred recording_gensim hdp 2 corpus m ∧
    has_shape (length corpus) 2 m ∧
    saved evs = [(doctopic_output_path "b" "e", m);
                 (wordtopic_output_path "b" "e", topics)] ∧
    files recorded_run_consolidated.2 !! doctopic_output_path "b" "e"
      = Some (NpyFile m).
Proof.
  apply (@one_row_per_document_of_full_corpus spec_utils recording_gensim
           "docword_concat.bow_tm.txt" (λ _ _, 0%float)
           "b" "e" false toy_params true toy_world_consolidated).
  vm_compute. reflexivity.
Defined.

(** The rows of that run: three rows, for the three documents of the full
    corpus, inferred by a model built from the two documents of the
    consolidated corpus and the three words of the vocabulary. *)
Example recorded_run_consolidated_rows :
  files recorded_run_consolidated.2 !! doctopic_output_path "b" "e"
  = Some (NpyFile [[nan; nan]; normalize [2%float; 3%float];
                   normalize [2%float; 3%float]]).
Proof. vm_compute. reflexivity. Qed.

(** * Do the rows sum to one? *)






